(** * PDF summarizer service: request pipeline, text extractor, summarization client

    A shallow embedding of [backend/main.py], [backend/pdf_extractor.py] and
    [agent/agent.py].  Python code that raises and touches the filesystem is
    written in a state-and-exception monad; the external collaborators (the
    PDF library, the temp-file and [os] calls, the model runtime, [uuid4])
    are fields of an environment record, so that every theorem quantifies
    over all their behaviours.

    Scope of the model: a [str] is a sequence of code points below 256
    (U+0000 to U+00FF), each held in one character, and the [str]
    operations are Python's on that range; the filesystem holds regular
    files only; exceptions are the classes deriving from [Exception]
    (interpreter-exit and task cancellation signals are not modelled). *)

From Stdlib Require Import ZArith NArith String Ascii List Sorted DecimalString.
From stdpp Require Import gmap strings list fin_maps.

Open Scope string_scope.

(** ** Python [str] operations *)

Module PyStr.

(** [str.isspace] on one code point below 256, which is also the set that
    [str.strip()] removes: TAB, LF, VT, FF, CR (9 to 13), the separators FS,
    GS, RS, US (28 to 31), the space (32), NEXT LINE (U+0085) and NO-BREAK
    SPACE (U+00A0). *)
Definition isspace (c : ascii) : bool :=
  let n := nat_of_ascii c in
  (((9 <=? n) && (n <=? 13)) || ((28 <=? n) && (n <=? 32))
   || (n =? 133) || (n =? 160))%nat.

(** [s.lstrip()] and [s.rstrip()] *)

Fixpoint lstrip (s : string) : string :=
  match s with
  | EmptyString => EmptyString
  | String c t => if isspace c then lstrip t else s
  end.

Fixpoint rstrip (s : string) : string :=
  match s with
  | EmptyString => EmptyString
  | String c t =>
      match rstrip t with
      | EmptyString => if isspace c then EmptyString else String c EmptyString
      | t' => String c t'
      end
  end.

(** [s.strip()] *)
Definition strip (s : string) : string := rstrip (lstrip s).

(** Truth value of a [str]: non-empty. *)
Definition truthy (s : string) : bool :=
  match s with EmptyString => false | String _ _ => true end.

(** Lowercase of one code point below 256: the letters A to Z and the
    accented capitals U+00C0 to U+00DE (U+00D7, the multiplication sign, is
    no letter) move 32 places up; everything else stays. *)
Definition lower_char (c : ascii) : ascii :=
  let n := nat_of_ascii c in
  if (((65 <=? n) && (n <=? 90))
      || ((192 <=? n) && (n <=? 222) && negb (n =? 215)))%nat
  then ascii_of_nat (n + 32) else c.

(** [s.lower()] *)
Fixpoint lower (s : string) : string :=
  match s with
  | EmptyString => EmptyString
  | String c t => String (lower_char c) (lower t)
  end.

(** [s.endswith(suffix)] *)
Fixpoint endswith (s suffix : string) : bool :=
  if String.eqb s suffix then true
  else match s with
       | EmptyString => false
       | String _ t => endswith t suffix
       end.

(** [sep.join(parts)] *)
Definition join (sep : string) (parts : list string) : string :=
  String.concat sep parts.

(** [str(n)] for an [int]. *)
Definition of_nat (n : nat) : string := NilZero.string_of_uint (Nat.to_uint n).
Definition of_Z (z : Z) : string := NilZero.string_of_int (Z.to_int z).

(** [needle in hay] as a proposition. *)
Definition contains (hay needle : string) : Prop :=
  exists pre post, hay = pre ++ needle ++ post.

End PyStr.

(** ** Exceptions *)

Inductive exc_class :=
| Exception | ValueError | TypeError | OSError
| NameError | UnboundLocalError
| RuntimeError | FileDataError | FileNotFoundError.

(** The class itself followed by its ancestors.  [fitz.FileDataError] and
    [fitz.FileNotFoundError] derive from [RuntimeError]. *)
Definition mro (c : exc_class) : list exc_class :=
  match c with
  | Exception => [Exception]
  | ValueError => [ValueError; Exception]
  | TypeError => [TypeError; Exception]
  | OSError => [OSError; Exception]
  | NameError => [NameError; Exception]
  | UnboundLocalError => [UnboundLocalError; NameError; Exception]
  | RuntimeError => [RuntimeError; Exception]
  | FileDataError => [FileDataError; RuntimeError; Exception]
  | FileNotFoundError => [FileNotFoundError; RuntimeError; Exception]
  end.

#[global] Instance exc_class_eq_dec : EqDecision exc_class.
Proof. solve_decision. Defined.

Definition issubclass (c d : exc_class) : bool := bool_decide (d ∈ mro c).

(** An exception object: an ordinary exception with its message, or
    FastAPI's [HTTPException(status_code, detail)]. *)
Inductive exc :=
| PyExc (cls : exc_class) (msg : string)
| HTTPException (status_code : Z) (detail : string).

(** An exception coming out of a library the service calls (the standard
    library, PyMuPDF, the ADK runtime): its class and message.  None of
    them raises FastAPI's [HTTPException]. *)
Definition lib_error : Type := exc_class * string.

Definition py (e : lib_error) : exc := PyExc (fst e) (snd e).

(** What an [except] clause names. *)
Inductive except_class :=
| Cls (c : exc_class)
| ClsHTTPException.

Definition isinstance (e : exc) (p : except_class) : bool :=
  match e, p with
  | PyExc c _, Cls d => issubclass c d
  | PyExc _ _, ClsHTTPException => false
  | HTTPException _ _, Cls d => bool_decide (d = Exception)
  | HTTPException _ _, ClsHTTPException => true
  end.

(** [str(e)]; for [HTTPException] Starlette prints status and detail. *)
Definition str (e : exc) : string :=
  match e with
  | PyExc _ m => m
  | HTTPException s d => PyStr.of_Z s ++ ": " ++ d
  end.

(** ** The state-and-exception monad *)

Inductive result (A : Type) :=
| Return (a : A)
| Raise (e : exc).
Arguments Return {A} a.
Arguments Raise {A} e.

Definition M (St A : Type) : Type := St -> result A * St.

Definition ret {St A} (a : A) : M St A := fun s => (Return a, s).
Definition raise {St A} (e : exc) : M St A := fun s => (Raise e, s).
Definition bind {St A B} (m : M St A) (k : A -> M St B) : M St B :=
  fun s => match m s with
           | (Return a, s') => k a s'
           | (Raise e, s') => (Raise e, s')
           end.
Definition get {St} : M St St := fun s => (Return s, s).
Definition modify {St} (f : St -> St) : M St unit := fun s => (Return tt, f s).
Definition of_result {St A} (r : result A) : M St A := fun s => (r, s).

Declare Scope py_scope.
Delimit Scope py_scope with py.
Notation "x <- c1 ;; c2" := (bind c1 (fun x => c2))
  (at level 100, c1 at next level, right associativity) : py_scope.
Notation "c1 ;; c2" := (bind c1 (fun _ => c2))
  (at level 100, right associativity) : py_scope.
Open Scope py_scope.

(** The [except] clauses of a [try], tried in order. *)
Fixpoint dispatch {St A} (clauses : list (except_class * (exc -> M St A)))
    (e : exc) : M St A :=
  match clauses with
  | [] => raise e
  | (p, h) :: rest => if isinstance e p then h e else dispatch rest e
  end.

Definition try_except {St A} (body : M St A)
    (clauses : list (except_class * (exc -> M St A))) : M St A :=
  fun s => match body s with
           | (Return a, s') => (Return a, s')
           | (Raise e, s') => dispatch clauses e s'
           end.

(** [try: body finally: fin].  An exception of [fin] replaces the outcome
    of [body]. *)
Definition try_finally {St A} (body : M St A) (fin : M St unit) : M St A :=
  fun s => match body s with
           | (r, s') => match fin s' with
                        | (Return _, s'') => (r, s'')
                        | (Raise e, s'') => (Raise e, s'')
                        end
           end.

(** ** The world outside the process and the collaborators *)

(** Calls made to the collaborators, in the order they happen. *)
Inductive call :=
| CallNamedTemporaryFile
| CallWrite (path : string)
| CallFitzOpen (path : string)
| CallCreateSession (app_name user_id session_id : string)
| CallRunAsync (user_id session_id : string)
| CallUnlink (path : string).

(** The filesystem (path to file content) and the log of collaborator calls. *)
Record world := World {
  files : gmap string (list Byte.byte);
  calls : list call
}.

Definition log (c : call) : M world unit :=
  modify (fun w => World (files w) (calls w ++ [c])).

(** A Python attribute that may be absent, [None], or hold a value. *)
Inductive attr (A : Type) :=
| Missing
| IsNone
| Value (a : A).
Arguments Missing {A}.
Arguments IsNone {A}.
Arguments Value {A} a.

(** Response events of the model runtime, as far as the client looks at
    them.  A content object, when present, is truthy. *)
Record Part := { text : attr string }.
Record Content := { parts : attr (list Part) }.
Record Event := { content : attr Content }.

(** A PDF opened by the library: for each page, what [page.get_text()]
    does (returns the text or raises). *)
Definition document := list (lib_error + string).

(** Behaviour of everything the service calls but does not implement, and
    the configuration read from the process environment. *)
Record Env := {
  (** [int(os.getenv("MAX_FILE_SIZE_MB", "10"))] *)
  MAX_FILE_SIZE_MB : Z;
  (** [tempfile.NamedTemporaryFile(delete=False, suffix='.pdf')]: raises, or
      creates an empty file and gives its name *)
  tempfile_outcome : lib_error + string;
  (** [temp_file.write(content)]: raises or writes everything *)
  write_error : option lib_error;
  (** [fitz.open] on a file with the given bytes *)
  pdf_parse : list Byte.byte -> lib_error + document;
  (** [fitz.open] on a path at which there is no regular file: the library
      raises (a missing file, a directory) or gives a new document (the
      empty path) *)
  open_absent : string -> lib_error + document;
  (** [os.unlink] raises or removes the file *)
  unlink_error : option lib_error;
  (** [uuid.uuid4().int], a 128-bit number *)
  uuid4 : N;
  (** [session_service.create_session] raises or succeeds *)
  create_session_error : option lib_error;
  (** [runner.run_async(user_id, session_id, new_message)] given the prompt:
      the events it yields, then normal exhaustion or an exception *)
  run_async : string -> string -> string -> list Event * option lib_error
}.

Definition MAX_FILE_SIZE_BYTES (env : Env) : Z := MAX_FILE_SIZE_MB env * 1024 * 1024.

Definition nl : string := String (ascii_of_nat 10) EmptyString.

(** ** backend/pdf_extractor.py *)

Module PDFExtractor.

(** What the library makes of a path in a given filesystem. *)
Definition open_result (env : Env) (w : world) (pdf_path : string)
    : lib_error + document :=
  match files w !! pdf_path with
  | Some data => pdf_parse env data
  | None => open_absent env pdf_path
  end.

(** [fitz.open(pdf_path)] *)
Definition fitz_open (env : Env) (pdf_path : string) : M world document :=
  log (CallFitzOpen pdf_path) ;;
  w <- get ;;
  match open_result env w pdf_path with
  | inl e => raise (py e)
  | inr doc => ret doc
  end.

(** [f"--- Page {page_num + 1} ---\n{text}"] *)
Definition page_entry (page_num : nat) (text : string) : string :=
  "--- Page " ++ PyStr.of_nat (page_num + 1) ++ " ---" ++ nl ++ text.

(** The loop [for page_num in range(len(doc))], from [page_num] on, over
    the pages not yet visited. *)
Fixpoint for_pages (pages : document) (page_num : nat)
    (text_content : list string) : result (list string) :=
  match pages with
  | [] => Return text_content
  | page :: rest =>
      match page with
      | inl e => Raise (py e)
      | inr text =>
          if PyStr.truthy (PyStr.strip text)
          then for_pages rest (S page_num)
                 (text_content ++ [page_entry page_num text])
          else for_pages rest (S page_num) text_content
      end
  end.

Definition extract_text (env : Env) (pdf_path : string) : M world string :=
  try_except
    (doc <- fitz_open env pdf_path ;;
     text_content <- of_result (for_pages doc 0 []) ;;
     match text_content with
     | [] => raise (PyExc ValueError "No text content found in PDF")
     | _ => ret (PyStr.join (nl ++ nl) text_content)
     end)
    [ (Cls FileDataError, fun e =>
         raise (PyExc ValueError ("Invalid or corrupted PDF file: " ++ str e)));
      (Cls Exception, fun e =>
         raise (PyExc Exception ("Error extracting text from PDF: " ++ str e))) ].

Definition get_page_count (env : Env) (pdf_path : string) : M world nat :=
  try_except
    (doc <- fitz_open env pdf_path ;;
     ret (length doc))
    [ (Cls Exception, fun e =>
         raise (PyExc Exception ("Error reading PDF: " ++ str e))) ].

End PDFExtractor.

(** ** agent/agent.py *)

Definition hex_digit (n : N) : ascii :=
  match String.get (N.to_nat n) "0123456789abcdef" with
  | Some c => c
  | None => "0"%char
  end.

(** [width] lowercase hexadecimal digits of [n], most significant first. *)
Fixpoint hex_fixed (width : nat) (n : N) : string :=
  match width with
  | O => EmptyString
  | S k => hex_fixed k (n / 16) ++ String (hex_digit (n mod 16)) EmptyString
  end.

(** [uuid.UUID.hex]: 32 digits. *)
Definition uuid_hex (u : N) : string := hex_fixed 32 u.

Definition user_id : string := "pdf_user".
Definition app_name : string := "pdf_summarizer".

(** [f"pdf_session_{uuid.uuid4().hex[:8]}"] *)
Definition session_id (env : Env) : string :=
  "pdf_session_" ++ String.substring 0 8 (uuid_hex (uuid4 env)).

Definition prompt_text (pdf_text : string) : string :=
  "Please summarize the following PDF document:" ++ nl ++ nl
  ++ pdf_text ++ nl ++ nl
  ++ "Provide a comprehensive summary following the guidelines in your instructions.".

(** [for part in event.content.parts] *)
Fixpoint for_parts (ps : list Part) (response_text : string) : string :=
  match ps with
  | [] => response_text
  | part :: rest =>
      match text part with
      | Value t =>
          if PyStr.truthy t then for_parts rest (response_text ++ t)
          else for_parts rest response_text
      | _ => for_parts rest response_text
      end
  end.

(** The body of [async for event in runner.run_async(...)], over the events
    the runtime yields. *)
Fixpoint for_events (events : list Event) (response_text : string)
    : result string :=
  match events with
  | [] => Return response_text
  | event :: rest =>
      match content event with
      | Value c =>
          match parts c with
          | Missing => for_events rest response_text
          | IsNone => Raise (PyExc TypeError "'NoneType' object is not iterable")
          | Value ps => for_events rest (for_parts ps response_text)
          end
      | _ => for_events rest response_text
      end
  end.

Definition create_session (env : Env) (app user session : string) : M world unit :=
  log (CallCreateSession app user session) ;;
  match create_session_error env with
  | Some e => raise (py e)
  | None => ret tt
  end.

(** The whole [async for] loop: the events are consumed in order, then the
    generator ends or raises. *)
Definition run_and_collect (env : Env) (user session prompt : string)
    : M world string :=
  log (CallRunAsync user session) ;;
  let '(events, failure) := run_async env user session prompt in
  response_text <- of_result (for_events events "") ;;
  match failure with
  | Some e => raise (py e)
  | None => ret response_text
  end.

(** Message of the exception raised when no text was collected. *)
Definition no_response_message : string :=
  "ADK did not generate any response. Check if Ollama is running and the model is available.".

Definition get_pdf_summary (env : Env) (pdf_text : string) : M world string :=
  try_except
    (create_session env app_name user_id (session_id env) ;;
     response_text <- run_and_collect env user_id (session_id env)
                        (prompt_text pdf_text) ;;
     if PyStr.truthy (PyStr.strip response_text)
     then ret (PyStr.strip response_text)
     else raise (PyExc Exception
       no_response_message))
    [ (Cls Exception, fun e =>
         raise (PyExc Exception
           ("Google ADK failed to generate summary. Error: " ++ str e
            ++ ". This helps identify ADK configuration or integration issues."))) ].

(** ** backend/main.py *)

Record UploadFile := {
  filename : string;
  (** what [await file.read()] returns *)
  file_bytes : list Byte.byte
}.

Record SummaryResponse := {
  summary : string;
  page_count : nat;
  file_name : string
}.

(** The state seen by the body of [upload_pdf]: the world, and the two local
    variables that the [finally] block reads.  [temp_file] is [None] for
    Python's [None] and [Some name] for an open temp-file object;
    [temp_file_path] is [None] while the variable is unbound. *)
Record frame := Frame {
  fw : world;
  temp_file : option string;
  temp_file_path : option string
}.

Definition in_world {A} (m : M world A) : M frame A :=
  fun st => let '(r, w') := m (fw st) in
            (r, Frame w' (temp_file st) (temp_file_path st)).

Definition set_temp_file (v : option string) : M frame unit :=
  modify (fun st => Frame (fw st) v (temp_file_path st)).

Definition set_temp_file_path (v : string) : M frame unit :=
  modify (fun st => Frame (fw st) (temp_file st) (Some v)).

(** [tempfile.NamedTemporaryFile(delete=False, suffix='.pdf')] *)
Definition NamedTemporaryFile (env : Env) : M world string :=
  log CallNamedTemporaryFile ;;
  match tempfile_outcome env with
  | inl e => raise (py e)
  | inr name =>
      modify (fun w => World (<[name := []]> (files w)) (calls w)) ;;
      ret name
  end.

(** [temp_file.write(content)], the file being closed when the [with]
    block is left. *)
Definition write (env : Env) (name : string) (data : list Byte.byte)
    : M world unit :=
  log (CallWrite name) ;;
  match write_error env with
  | Some e => raise (py e)
  | None => modify (fun w => World (<[name := data]> (files w)) (calls w))
  end.

(** [os.path.exists(path)] *)
Definition os_path_exists (path : string) : M world bool :=
  w <- get ;;
  ret (match files w !! path with Some _ => true | None => false end).

(** [os.unlink(path)] *)
Definition os_unlink (env : Env) (path : string) : M world unit :=
  log (CallUnlink path) ;;
  match unlink_error env with
  | Some e => raise (py e)
  | None => modify (fun w => World (delete path (files w)) (calls w))
  end.

(** What reading the local variable [temp_file_path] raises while it is
    unbound. *)
Definition unbound_temp_file_path : exc :=
  PyExc UnboundLocalError
    "cannot access local variable 'temp_file_path' where it is not associated with a value".

(** The [finally] block of [upload_pdf]. *)
Definition cleanup (env : Env) : M frame unit :=
  st <- get ;;
  match temp_file st with
  | None => ret tt
  | Some _ =>
      match temp_file_path st with
      | None =>
          raise unbound_temp_file_path
      | Some path =>
          found <- in_world (os_path_exists path) ;;
          if found
          then try_except (in_world (os_unlink env path))
                 [ (Cls Exception, fun _ => ret tt) ]
          else ret tt
      end
  end.

(** The statements of the [try] block that follow the [with] block:
    extraction, summarization and the response. *)
Definition extract_and_summarize (env : Env) (file : UploadFile)
    (path : string) : M frame SummaryResponse :=
  extracted <-
    try_except
      (pdf_text <- in_world (PDFExtractor.extract_text env path) ;;
       n <- in_world (PDFExtractor.get_page_count env path) ;;
       ret (pdf_text, n))
      [ (Cls ValueError, fun e => raise (HTTPException 400 (str e)));
        (Cls Exception, fun e =>
           raise (HTTPException 500 ("Error processing PDF: " ++ str e))) ] ;;
  generated <-
    try_except
      (in_world (get_pdf_summary env (fst extracted)))
      [ (Cls Exception, fun e =>
           raise (HTTPException 500 ("Error generating summary: " ++ str e))) ] ;;
  ret {| summary := generated;
         page_count := snd extracted;
         file_name := filename file |}.

(** The [try] ... [except] ... [finally] statement of [upload_pdf]. *)
Definition process_upload (env : Env) (file : UploadFile)
    (data : list Byte.byte) : M frame SummaryResponse :=
  try_finally
    (try_except
       (name <- in_world (NamedTemporaryFile env) ;;
        set_temp_file (Some name) ;;
        in_world (write env name data) ;;
        set_temp_file_path name ;;
        extract_and_summarize env file name)
       [ (ClsHTTPException, fun e => raise e);
         (Cls Exception, fun e =>
            raise (HTTPException 500 ("Unexpected error: " ++ str e))) ])
    (cleanup env).

(** [POST /upload].  The handler either returns the response model
    (status 200) or raises; an [HTTPException] is answered by FastAPI with
    its status code and detail.  The [try] statement starts with
    [temp_file = None] and [temp_file_path] not yet assigned. *)
Definition upload_pdf (env : Env) (file : UploadFile) : M world SummaryResponse :=
  if negb (PyStr.endswith (PyStr.lower (filename file)) ".pdf")
  then raise (HTTPException 400 "Only PDF files are allowed")
  else
    let data := file_bytes file in
    let file_size := Z.of_nat (length data) in
    if (file_size >? MAX_FILE_SIZE_BYTES env)%Z
    then raise (HTTPException 400
           ("File size exceeds maximum allowed size of "
            ++ PyStr.of_Z (MAX_FILE_SIZE_MB env) ++ "MB"))
    else if (file_size =? 0)%Z
    then raise (HTTPException 400 "Uploaded file is empty")
    else fun w =>
      let '(r, st) := process_upload env file data (Frame w None None) in
      (r, fw st).

(** ** Sample collaborators, used to run the model on concrete requests *)

Definition pdf_magic : list Byte.byte := [Byte.x25; Byte.x50; Byte.x44; Byte.x46].

Definition sample_events : list Event :=
  [ {| content := Value {| parts := Value [ {| text := Value " A short" |} ] |} |};
    {| content := IsNone |};
    {| content := Value {| parts := Value [ {| text := Value " summary. " |};
                                            {| text := IsNone |} ] |} |} ].

(** A three-page document whose second page is blank, a runtime that
    answers in two fragments, and a filesystem that behaves. *)
Definition sample_env : Env := {|
  MAX_FILE_SIZE_MB := 10;
  tempfile_outcome := inr "/tmp/tmpab12cd.pdf";
  write_error := None;
  pdf_parse := fun _ => inr [inr "Intro"; inr "  "; inr "End"];
  open_absent := fun path => inl (FileNotFoundError, "no such file: '" ++ path ++ "'");
  unlink_error := None;
  uuid4 := 0xdeadbeef00004000800000000000002a%N;
  create_session_error := None;
  run_async := fun _ _ _ => (sample_events, None)
|}.

Definition sample_file : UploadFile :=
  {| filename := "Report.PDF"; file_bytes := pdf_magic |}.

Definition empty_world : world := World ∅ [].

Definition with_pdf (env : Env) (outcome : lib_error + document) : Env :=
  {| MAX_FILE_SIZE_MB := MAX_FILE_SIZE_MB env;
     tempfile_outcome := tempfile_outcome env;
     write_error := write_error env;
     pdf_parse := fun _ => outcome;
     open_absent := open_absent env;
     unlink_error := unlink_error env;
     uuid4 := uuid4 env;
     create_session_error := create_session_error env;
     run_async := run_async env |}.

Definition with_unlink_error (env : Env) (e : option lib_error) : Env :=
  {| MAX_FILE_SIZE_MB := MAX_FILE_SIZE_MB env;
     tempfile_outcome := tempfile_outcome env;
     write_error := write_error env;
     pdf_parse := pdf_parse env;
     open_absent := open_absent env;
     unlink_error := e;
     uuid4 := uuid4 env;
     create_session_error := create_session_error env;
     run_async := run_async env |}.

Definition with_runtime (env : Env) (events : list Event)
    (failure : option lib_error) : Env :=
  {| MAX_FILE_SIZE_MB := MAX_FILE_SIZE_MB env;
     tempfile_outcome := tempfile_outcome env;
     write_error := write_error env;
     pdf_parse := pdf_parse env;
     open_absent := open_absent env;
     unlink_error := unlink_error env;
     uuid4 := uuid4 env;
     create_session_error := create_session_error env;
     run_async := fun _ _ _ => (events, failure) |}.

Definition with_uuid4 (env : Env) (u : N) : Env :=
  {| MAX_FILE_SIZE_MB := MAX_FILE_SIZE_MB env;
     tempfile_outcome := tempfile_outcome env;
     write_error := write_error env;
     pdf_parse := pdf_parse env;
     open_absent := open_absent env;
     unlink_error := unlink_error env;
     uuid4 := u;
     create_session_error := create_session_error env;
     run_async := run_async env |}.

Definition with_limit (env : Env) (megabytes : Z) : Env :=
  {| MAX_FILE_SIZE_MB := megabytes;
     tempfile_outcome := tempfile_outcome env;
     write_error := write_error env;
     pdf_parse := pdf_parse env;
     open_absent := open_absent env;
     unlink_error := unlink_error env;
     uuid4 := uuid4 env;
     create_session_error := create_session_error env;
     run_async := run_async env |}.

(** ** Notions used to state the properties *)

(** Concatenation of a list of strings. *)
Definition cat (l : list string) : string := fold_right String.append "" l.

(** The text fragments an event carries, in part order. *)
Definition part_fragments (p : Part) : list string :=
  match text p with
  | Value t => [t]
  | _ => []
  end.

Definition event_fragments (e : Event) : list string :=
  match content e with
  | Value c =>
      match parts c with
      | Value ps => flat_map part_fragments ps
      | _ => []
      end
  | _ => []
  end.

Definition all_fragments (events : list Event) : list string :=
  flat_map event_fragments events.

(** Page texts paired with their 0-based page index, counting from [k]. *)
Fixpoint numbered (k : nat) (texts : list string) : list (nat * string) :=
  match texts with
  | [] => []
  | t :: rest => (k, t) :: numbered (S k) rest
  end.

(** A page has text when stripping leaves something. *)
Definition has_text (t : string) : bool := PyStr.truthy (PyStr.strip t).

(** The pages that have text, with their 0-based index, in page order. *)
Definition kept_pages (texts : list string) : list (nat * string) :=
  List.filter (fun it => has_text (snd it)) (numbered 0 texts).

(** The entry written for a page. *)
Definition entry_of (p : nat * string) : string :=
  PDFExtractor.page_entry (fst p) (snd p).

(** The upload passes the validation gate of [upload_pdf]. *)
Definition passes_gate (env : Env) (file : UploadFile) : Prop :=
  PyStr.endswith (PyStr.lower (filename file)) ".pdf" = true
  /\ (0 < Z.of_nat (length (file_bytes file)) <= MAX_FILE_SIZE_BYTES env)%Z.

(** The upload violates the validation gate. *)
Definition bad_extension (file : UploadFile) : Prop :=
  PyStr.endswith (PyStr.lower (filename file)) ".pdf" = false.
Definition oversize (env : Env) (file : UploadFile) : Prop :=
  (Z.of_nat (length (file_bytes file)) > MAX_FILE_SIZE_BYTES env)%Z.
Definition empty_upload (file : UploadFile) : Prop :=
  length (file_bytes file) = 0.

Definition only_pdf_detail : string := "Only PDF files are allowed".
Definition empty_detail : string := "Uploaded file is empty".
Definition size_detail (env : Env) : string :=
  "File size exceeds maximum allowed size of "
  ++ PyStr.of_Z (MAX_FILE_SIZE_MB env) ++ "MB".

(** The world once the upload is staged under [name]. *)
Definition staged (w : world) (name : string) (data : list Byte.byte) : world :=
  World (<[name := data]> (<[name := []]> (files w)))
        ((calls w ++ [CallNamedTemporaryFile]) ++ [CallWrite name]).

(** The world after the [finally] block has run on a staged file. *)
Definition cleaned (env : Env) (name : string) (w : world) : world :=
  World (match unlink_error env with
         | Some _ => files w
         | None => delete name (files w)
         end)
        (calls w ++ [CallUnlink name]).

(** The handler's outcome is an answer the handler chose: the response
    model or an [HTTPException]. *)
Definition answered {A} (r : result A) : Prop :=
  match r with
  | Return _ => True
  | Raise (HTTPException _ _) => True
  | Raise (PyExc _ _) => False
  end.

(** The value of a hexadecimal digit. *)
Definition hex_value (c : ascii) : N :=
  match String.index 0 (String c "") "0123456789abcdef" with
  | Some i => N.of_nat i
  | None => 0
  end.

(** What the statements after the [with] block can produce for an upload:
    the response built from a parsed document with text and a non-blank
    model answer, the answer 400 for an invalid document, or an answer
    500. *)
Definition pipeline_outcome (env : Env) (file : UploadFile)
    (r : result SummaryResponse) : Prop :=
  (exists doc tc events rt,
     pdf_parse env (file_bytes file) = inr doc
     /\ PDFExtractor.for_pages doc 0 [] = Return tc /\ tc <> []
     /\ create_session_error env = None
     /\ run_async env user_id (session_id env)
          (prompt_text (PyStr.join (nl ++ nl) tc)) = (events, None)
     /\ for_events events "" = Return rt
     /\ PyStr.strip rt <> ""
     /\ r = Return {| summary := PyStr.strip rt;
                      page_count := length doc;
                      file_name := filename file |})
  \/ (exists m,
        r = Raise (HTTPException 400 ("Invalid or corrupted PDF file: " ++ m)))
  \/ (exists d, r = Raise (HTTPException 500 d)).

(** No event carries a content whose [parts] is [None]. *)
Definition no_null_parts (events : list Event) : Prop :=
  Forall (fun ev => forall c, content ev = Value c -> parts c <> IsNone) events.

Definition connection_refused : lib_error :=
  (OSError, "[Errno 111] Connection refused").

Definition permission_denied : lib_error :=
  (OSError, "[Errno 13] Permission denied: '/tmp/tmpab12cd.pdf'").

(** The exception [get_pdf_summary] raises for a failure with message [m]. *)
Definition adk_failed (m : string) : exc :=
  PyExc Exception
    ("Google ADK failed to generate summary. Error: " ++ m
     ++ ". This helps identify ADK configuration or integration issues.").

(** The model runtime raises [e] during summarization: when the session is
    created, or from the event stream after the events before it were
    consumed. *)
Inductive runtime_raises (env : Env) (pdf_text : string) (e : lib_error) : Prop :=
| raises_in_create_session :
    create_session_error env = Some e -> runtime_raises env pdf_text e
| raises_in_run_async events response_text :
    create_session_error env = None ->
    run_async env user_id (session_id env) (prompt_text pdf_text) = (events, Some e) ->
    for_events events "" = Return response_text ->
    runtime_raises env pdf_text e.

(** ** Configuration: agent/agent.py, agent/ollama_config.py, agent/proxy_config.py *)

(** [os.getenv(key, default)] on the process environment, as it is once
    [load_dotenv()] has run. *)
Definition os_getenv (environ : gmap string string) (key default : string) : string :=
  match environ !! key with
  | Some v => v
  | None => default
  end.

Module Agent.

Definition MODEL_NAME (environ : gmap string string) : string :=
  os_getenv environ "MODEL_NAME" "mistral".

Definition OLLAMA_API_BASE (environ : gmap string string) : string :=
  os_getenv environ "OLLAMA_BASE_URL" "http://localhost:11434".

(** The model the agent is built with: [f"ollama_chat/{MODEL_NAME}"]. *)
Definition agent_model (environ : gmap string string) : string :=
  "ollama_chat/" ++ MODEL_NAME environ.

(** The agent's tool function. *)
Definition summarize_pdf_text (pdf_text : string) : string := pdf_text.

End Agent.

Module OllamaConfig.

Definition OLLAMA_BASE_URL (environ : gmap string string) : string :=
  os_getenv environ "OLLAMA_BASE_URL" "http://localhost:11434".

Definition MODEL_NAME (environ : gmap string string) : string :=
  os_getenv environ "MODEL_NAME" "mistral".

Definition get_ollama_config (environ : gmap string string) : gmap string string :=
  <["base_url" := OLLAMA_BASE_URL environ]>
    (<["model" := MODEL_NAME environ]> ∅).

(** [f"{OLLAMA_BASE_URL}/v1"] *)
Definition get_model_endpoint (environ : gmap string string) : string :=
  OLLAMA_BASE_URL environ ++ "/v1".

End OllamaConfig.

Module ProxyConfig.

Definition LITELLM_PROXY_URL (environ : gmap string string) : string :=
  os_getenv environ "LITELLM_PROXY_URL" "http://localhost:4000".

Definition LITELLM_MASTER_KEY (environ : gmap string string) : string :=
  os_getenv environ "LITELLM_MASTER_KEY" "sk-1234".

Definition MODEL_NAME (environ : gmap string string) : string :=
  os_getenv environ "MODEL_NAME" "gemini-flash".

Definition get_proxy_config (environ : gmap string string) : gmap string string :=
  <["proxy_url" := LITELLM_PROXY_URL environ]>
    (<["api_key" := LITELLM_MASTER_KEY environ]>
       (<["model" := MODEL_NAME environ]> ∅)).

End ProxyConfig.

(** ** Further notions used to state properties *)

(** A world that already holds a file. *)
Definition other_world : world := World (<["/etc/hosts" := pdf_magic]> ∅) [].

(** Uploads of exactly one mebibyte, and of one byte more. *)
Definition megabyte_file : UploadFile :=
  {| filename := "big.pdf"; file_bytes := List.repeat Byte.x00 (2 ^ 20) |}.

Definition megabyte_plus_one_file : UploadFile :=
  {| filename := "big.pdf"; file_bytes := Byte.x00 :: List.repeat Byte.x00 (2 ^ 20) |}.

Definition not_a_pdf : lib_error := (FileDataError, "Failed to open file").

Definition password_needed : lib_error :=
  (RuntimeError, "document closed or encrypted").

(** A stream whose second event has a content with [parts] set to [None]. *)
Definition null_parts_events : list Event :=
  [ {| content := Value {| parts := Value [ {| text := Value "Some text." |} ] |} |};
    {| content := Value {| parts := IsNone |} |};
    {| content := Value {| parts := Value [ {| text := Value " More." |} ] |} |} ].

Definition no_space : lib_error := (OSError, "[Errno 28] No space left on device").

Definition with_tempfile_error (env : Env) (e : lib_error) : Env :=
  {| MAX_FILE_SIZE_MB := MAX_FILE_SIZE_MB env;
     tempfile_outcome := inl e;
     write_error := write_error env;
     pdf_parse := pdf_parse env;
     open_absent := open_absent env;
     unlink_error := unlink_error env;
     uuid4 := uuid4 env;
     create_session_error := create_session_error env;
     run_async := run_async env |}.

Definition with_write_error (env : Env) (e : option lib_error) : Env :=
  {| MAX_FILE_SIZE_MB := MAX_FILE_SIZE_MB env;
     tempfile_outcome := tempfile_outcome env;
     write_error := e;
     pdf_parse := pdf_parse env;
     open_absent := open_absent env;
     unlink_error := unlink_error env;
     uuid4 := uuid4 env;
     create_session_error := create_session_error env;
     run_async := run_async env |}.

Definition with_session_error (env : Env) (e : option lib_error) : Env :=
  {| MAX_FILE_SIZE_MB := MAX_FILE_SIZE_MB env;
     tempfile_outcome := tempfile_outcome env;
     write_error := write_error env;
     pdf_parse := pdf_parse env;
     open_absent := open_absent env;
     unlink_error := unlink_error env;
     uuid4 := uuid4 env;
     create_session_error := e;
     run_async := run_async env |}.


(** The call goes to the model runtime. *)
Definition is_runtime_call (c : call) : bool :=
  match c with
  | CallCreateSession _ _ _ | CallRunAsync _ _ => true
  | _ => false
  end.

(** The event has a content whose [parts] is [None]. *)
Definition has_null_parts (ev : Event) : Prop :=
  exists c, content ev = Value c /\ parts c = IsNone.

(** A digit or a letter from [a] to [f]. *)
Definition is_lower_hex (c : ascii) : bool :=
  let n := nat_of_ascii c in
  (((48 <=? n) && (n <=? 57)) || ((97 <=? n) && (n <=? 102)))%nat.

Fixpoint string_forallb (f : ascii -> bool) (s : string) : bool :=
  match s with
  | EmptyString => true
  | String c t => f c && string_forallb f t
  end.

(** The calls of the statements after the [with] block, by how far they
    get: the document is opened for its text, opened again for its page
    count, the session is created, the agent is run. *)
Definition pipeline_calls (env : Env) (path : string) (depth : nat) : list call :=
  take depth [ CallFitzOpen path; CallFitzOpen path;
               CallCreateSession app_name user_id (session_id env);
               CallRunAsync user_id (session_id env) ].

(** ** White space, trimming and page markers, in the words of the specification *)

(** The text is empty or consists of white space only. *)
Definition whitespace_only (s : string) : bool := string_forallb PyStr.isspace s.

(** [s] is [full] with its leading and trailing white space removed: what
    was removed at either end is white space, and [s] neither begins nor
    ends with a white-space character. *)
Definition trimmed_from (full s : string) : Prop :=
  exists lead trail,
    full = lead ++ s ++ trail
    /\ whitespace_only lead = true
    /\ whitespace_only trail = true
    /\ (forall c rest, s = String c rest -> PyStr.isspace c = false)
    /\ (forall init c, s = init ++ String c "" -> PyStr.isspace c = false).

(** The pages that are not whitespace-only, each with its 0-based index, in
    page order. *)
Definition pages_with_text (texts : list string) : list (nat * string) :=
  List.filter (fun it => negb (whitespace_only (snd it))) (numbered 0 texts).

(** The marker of the page with 1-based number [n]. *)
Definition page_marker (n : nat) : string := "--- Page " ++ PyStr.of_nat n ++ " ---".

(** A page in the output: its marker, a line break, its text. *)
Definition marked_page (it : nat * string) : string :=
  page_marker (fst it + 1) ++ nl ++ snd it.

(** Entries separated by a blank line. *)
Fixpoint blank_line_separated (entries : list string) : string :=
  match entries with
  | [] => ""
  | entry :: rest =>
      match rest with
      | [] => entry
      | _ => entry ++ nl ++ nl ++ blank_line_separated rest
      end
  end.

(** NO-BREAK SPACE (U+00A0) and NEXT LINE (U+0085). *)
Definition nbsp : string := String (ascii_of_nat 160) "".
Definition nel : string := String (ascii_of_nat 133) "".

(** A reply made of white space outside the ASCII range only. *)
Definition nbsp_events : list Event :=
  [ {| content := Value {| parts := Value [ {| text := Value nbsp |} ] |} |};
    {| content := Value {| parts := Value [ {| text := Value nel |};
                                            {| text := Value nbsp |} ] |} |} ].

(** A reply padded with such white space on both sides. *)
Definition padded_events : list Event :=
  [ {| content := Value {| parts := Value [ {| text := Value (nbsp ++ "A short") |} ] |} |};
    {| content := Value {| parts := Value [ {| text := Value " summary." |};
                                            {| text := Value nel |} ] |} |} ].

(** * Properties *)

(** ** Running the monad *)

(** Unfold the handler, its callees and the monad down to matches on the
    collaborators' outcomes. *)
Ltac run :=
  cbv [upload_pdf process_upload extract_and_summarize cleanup
       NamedTemporaryFile write os_path_exists os_unlink
       set_temp_file set_temp_file_path in_world
       PDFExtractor.extract_text PDFExtractor.get_page_count
       PDFExtractor.fitz_open
       get_pdf_summary run_and_collect create_session
       log bind ret raise get modify of_result
       try_except try_finally dispatch];
  cbn [fw temp_file temp_file_path files calls fst snd].

(** Reduce what the last rewrite or case split has unblocked. *)
Ltac step :=
  cbv beta iota zeta; cbn [fw temp_file temp_file_path files calls fst snd].

(** Unfold the monad operations only. *)
Ltac prims :=
  cbv [bind ret raise get modify of_result log in_world
       try_except try_finally dispatch];
  cbn [fw temp_file temp_file_path files calls fst snd].

(** Decide the subclass tests between concrete exception classes. *)
Ltac classes :=
  repeat match goal with
         | |- context [issubclass ?a ?b] =>
             let v := eval vm_compute in (issubclass a b) in
             change (issubclass a b) with v
         | H : context [issubclass ?a ?b] |- _ =>
             let v := eval vm_compute in (issubclass a b) in
             change (issubclass a b) with v in H
         end.

(** ** Strings *)

Lemma endswith_app (pre suffix : string) :
  PyStr.endswith (pre ++ suffix) suffix = true.
Proof.
  induction pre as [|c pre IH]; simpl.
  - destruct suffix; simpl; [reflexivity|].
    now rewrite Ascii.eqb_refl, String.eqb_refl.
  - rewrite IH.
    match goal with |- (if ?b then _ else _) = _ => now destruct b end.
Qed.

Lemma endswith_inv (s suffix : string) :
  PyStr.endswith s suffix = true -> exists pre, s = pre ++ suffix.
Proof.
  induction s as [|c s IH]; intros H.
  - simpl in H. destruct suffix; [now exists ""|discriminate].
  - cbn [PyStr.endswith] in H.
    destruct (String.eqb (String c s) suffix) eqn:E.
    + apply String.eqb_eq in E. now exists "".
    + destruct (IH H) as [pre ->]. now exists (String c pre).
Qed.

Lemma contains_intro (pre needle post : string) :
  PyStr.contains (pre ++ needle ++ post) needle.
Proof. now exists pre, post. Qed.

Lemma app_cons (c : ascii) (s t : string) : String c s ++ t = String c (s ++ t).
Proof. reflexivity. Qed.

Lemma app_empty_l (s : string) : "" ++ s = s.
Proof. reflexivity. Qed.

Lemma app_empty_r (s : string) : s ++ "" = s.
Proof. induction s as [|c s IH]; [reflexivity|]. now rewrite app_cons, IH. Qed.

Lemma app_assoc_s (a b c : string) : (a ++ b) ++ c = a ++ b ++ c.
Proof. induction a as [|x a IH]; [reflexivity|]. now rewrite !app_cons, IH. Qed.

Lemma cat_app (l1 l2 : list string) : cat (l1 ++ l2) = cat l1 ++ cat l2.
Proof.
  induction l1 as [|x l1 IH]; [reflexivity|].
  change (x ++ cat (l1 ++ l2) = (x ++ cat l1) ++ cat l2).
  now rewrite IH, app_assoc_s.
Qed.

(** ** White space *)

Lemma string_forallb_app (f : ascii -> bool) (a b : string) :
  string_forallb f (a ++ b) = string_forallb f a && string_forallb f b.
Proof.
  induction a as [|c a IH]; [reflexivity|].
  rewrite app_cons. cbn [string_forallb]. rewrite IH. now destruct (f c).
Qed.

Lemma lstrip_cases (s : string) :
  PyStr.lstrip s = ""
  \/ exists c t, PyStr.lstrip s = String c t /\ PyStr.isspace c = false.
Proof.
  induction s as [|c s IH]; [now left|].
  cbn [PyStr.lstrip]. destruct (PyStr.isspace c) eqn:E; [exact IH|].
  right. now exists c, s.
Qed.

Lemma rstrip_keeps_head (c : ascii) (t : string) :
  PyStr.isspace c = false -> PyStr.rstrip (String c t) = String c (PyStr.rstrip t).
Proof.
  intros H. cbn [PyStr.rstrip]. rewrite H. now destruct (PyStr.rstrip t).
Qed.

Lemma rstrip_cons (c : ascii) (t : string) :
  PyStr.rstrip (String c t)
    = match PyStr.rstrip t with
      | EmptyString => if PyStr.isspace c then EmptyString else String c EmptyString
      | String d t' => String c (String d t')
      end.
Proof. reflexivity. Qed.

Lemma rstrip_idempotent (s : string) : PyStr.rstrip (PyStr.rstrip s) = PyStr.rstrip s.
Proof.
  induction s as [|c s IH]; [reflexivity|].
  cbn [PyStr.rstrip]. destruct (PyStr.rstrip s) as [|d t] eqn:E.
  - destruct (PyStr.isspace c) eqn:Ec; [reflexivity|].
    cbn [PyStr.rstrip]. now rewrite Ec.
  - now rewrite rstrip_cons, IH.
Qed.

Lemma strip_shape (s : string) :
  PyStr.strip s = ""
  \/ exists c t, PyStr.strip s = String c t /\ PyStr.isspace c = false.
Proof.
  unfold PyStr.strip.
  destruct (lstrip_cases s) as [->|(c & t & -> & Hc)]; [now left|].
  right. rewrite (rstrip_keeps_head c t Hc). eauto.
Qed.

Lemma strip_idempotent (s : string) : PyStr.strip (PyStr.strip s) = PyStr.strip s.
Proof.
  destruct (strip_shape s) as [->|(c & t & E & Hc)]; [reflexivity|].
  unfold PyStr.strip at 1. rewrite E. cbn [PyStr.lstrip]. rewrite Hc, <- E.
  unfold PyStr.strip. apply rstrip_idempotent.
Qed.

Lemma lstrip_split (s : string) :
  exists lead, s = lead ++ PyStr.lstrip s /\ whitespace_only lead = true.
Proof.
  induction s as [|c s (lead & IH & Hl)]; [now exists ""|].
  cbn [PyStr.lstrip]. destruct (PyStr.isspace c) eqn:E.
  - exists (String c lead). rewrite app_cons, <- IH. split; [reflexivity|].
    unfold whitespace_only in *. cbn [string_forallb]. now rewrite E.
  - now exists "".
Qed.

Lemma rstrip_split (s : string) :
  exists trail, s = PyStr.rstrip s ++ trail /\ whitespace_only trail = true.
Proof.
  induction s as [|c s (trail & IH & Ht)]; [now exists ""|].
  rewrite rstrip_cons. destruct (PyStr.rstrip s) as [|d t] eqn:E.
  - destruct (PyStr.isspace c) eqn:Ec.
    + exists (String c s). split; [reflexivity|].
      rewrite app_empty_l in IH. unfold whitespace_only in *.
      cbn [string_forallb]. now rewrite Ec, IH.
    + exists trail. rewrite app_cons, <- IH. auto.
  - exists trail. rewrite app_cons, <- IH. auto.
Qed.

Lemma rstrip_last (s init : string) (c : ascii) :
  PyStr.rstrip s = init ++ String c "" -> PyStr.isspace c = false.
Proof.
  revert init. induction s as [|a s IH]; intros init H.
  - destruct init; discriminate.
  - rewrite rstrip_cons in H. destruct (PyStr.rstrip s) as [|d t] eqn:E.
    + destruct (PyStr.isspace a) eqn:Ea.
      * destruct init; discriminate.
      * destruct init as [|b init].
        -- rewrite app_empty_l in H. now injection H as <-.
        -- rewrite app_cons in H. injection H as _ H. destruct init; discriminate.
    + destruct init as [|b init].
      * rewrite app_empty_l in H. discriminate.
      * rewrite app_cons in H. injection H as _ H. now apply (IH init).
Qed.

Lemma lstrip_empty_iff (s : string) :
  PyStr.lstrip s = "" <-> whitespace_only s = true.
Proof.
  unfold whitespace_only. induction s as [|c s IH]; [easy|].
  cbn [PyStr.lstrip string_forallb]. destruct (PyStr.isspace c); [exact IH|].
  cbn. split; discriminate.
Qed.

Lemma rstrip_empty_iff (s : string) :
  PyStr.rstrip s = "" <-> whitespace_only s = true.
Proof.
  unfold whitespace_only. induction s as [|c s IH]; [easy|].
  rewrite rstrip_cons. cbn [string_forallb].
  destruct (PyStr.rstrip s) as [|d t].
  - destruct (PyStr.isspace c); cbn; [|split; discriminate].
    split; intros _; [now apply IH|reflexivity].
  - split; [discriminate|]. intros H. apply andb_true_iff in H as [_ H].
    now apply IH in H.
Qed.

Lemma strip_empty_iff (s : string) :
  PyStr.strip s = "" <-> whitespace_only s = true.
Proof.
  unfold PyStr.strip. rewrite rstrip_empty_iff.
  destruct (lstrip_split s) as (lead & E & Hl).
  rewrite E at 2. unfold whitespace_only in *.
  rewrite string_forallb_app, Hl. reflexivity.
Qed.

Lemma has_text_spec (t : string) :
  PyStr.truthy (PyStr.strip t) = negb (whitespace_only t).
Proof.
  destruct (whitespace_only t) eqn:E.
  - apply strip_empty_iff in E. now rewrite E.
  - destruct (PyStr.strip t) eqn:Es; [|reflexivity].
    apply strip_empty_iff in Es. congruence.
Qed.

Lemma strip_trimmed (s : string) : trimmed_from s (PyStr.strip s).
Proof.
  unfold PyStr.strip.
  destruct (lstrip_split s) as (lead & E & Hl).
  destruct (rstrip_split (PyStr.lstrip s)) as (trail & Et & Ht).
  exists lead, trail. split; [now rewrite <- Et|].
  split; [exact Hl|]. split; [exact Ht|]. split.
  - intros c rest H.
    destruct (lstrip_cases s) as [E0|(c' & t & E0 & Hc)]; rewrite E0 in H.
    + discriminate.
    + rewrite (rstrip_keeps_head c' t Hc) in H. now injection H as <- _.
  - intros init c H. exact (rstrip_last _ _ _ H).
Qed.

Lemma trimmed_not_blank (s : string) :
  PyStr.strip s <> "" -> whitespace_only (PyStr.strip s) = false.
Proof.
  intros H. destruct (whitespace_only (PyStr.strip s)) eqn:E; [|reflexivity].
  apply strip_empty_iff in E. rewrite strip_idempotent in E. contradiction.
Qed.

Lemma lstrip_app_blank (lead s : string) :
  whitespace_only lead = true -> PyStr.lstrip (lead ++ s) = PyStr.lstrip s.
Proof.
  unfold whitespace_only. induction lead as [|c lead IH]; intros H; [reflexivity|].
  cbn [string_forallb] in H. apply andb_true_iff in H as [Hc H].
  rewrite app_cons. cbn [PyStr.lstrip]. rewrite Hc. now apply IH.
Qed.

Lemma rstrip_app_blank (s trail : string) :
  whitespace_only trail = true -> PyStr.rstrip (s ++ trail) = PyStr.rstrip s.
Proof.
  intros H. induction s as [|c s IH].
  - rewrite app_empty_l. now apply rstrip_empty_iff.
  - now rewrite app_cons, !rstrip_cons, IH.
Qed.

Lemma rstrip_fixed (s : string) :
  (forall init c, s = init ++ String c "" -> PyStr.isspace c = false) ->
  PyStr.rstrip s = s.
Proof.
  induction s as [|a s IH]; intros H; [reflexivity|].
  rewrite rstrip_cons, IH.
  - destruct s as [|d t]; [|reflexivity].
    now rewrite (H "" a eq_refl).
  - intros init c E. apply (H (String a init) c). now rewrite app_cons, E.
Qed.

Lemma trimmed_from_strip (full s : string) :
  trimmed_from full s <-> s = PyStr.strip full.
Proof.
  split; [|intros ->; apply strip_trimmed].
  intros (lead & trail & -> & Hl & Ht & Hfirst & Hlast).
  unfold PyStr.strip. rewrite (lstrip_app_blank lead _ Hl).
  destruct s as [|c rest].
  - rewrite app_empty_l, (proj2 (lstrip_empty_iff trail) Ht). reflexivity.
  - rewrite app_cons. cbn [PyStr.lstrip]. rewrite (Hfirst c rest eq_refl).
    rewrite <- app_cons, (rstrip_app_blank _ trail Ht).
    symmetry. now apply rstrip_fixed.
Qed.

(** ** The collaborating functions, run *)

Lemma open_result_file (env : Env) (p : string) (w : world) data :
  files w !! p = Some data ->
  PDFExtractor.open_result env w p = pdf_parse env data.
Proof. intros H. unfold PDFExtractor.open_result. now rewrite H. Qed.

Lemma open_result_same (env : Env) (p : string) (w1 w2 : world) :
  files w1 !! p = files w2 !! p ->
  PDFExtractor.open_result env w1 p = PDFExtractor.open_result env w2 p.
Proof. intros H. unfold PDFExtractor.open_result. now rewrite H. Qed.

Lemma open_result_staged (env : Env) (w : world) (name : string) data :
  PDFExtractor.open_result env (staged w name data) name = pdf_parse env data.
Proof. apply open_result_file. cbn [staged files]. apply lookup_insert_eq. Qed.

Lemma fitz_open_run (env : Env) (p : string) (w : world) :
  PDFExtractor.fitz_open env p w =
    (match PDFExtractor.open_result env w p with
     | inl e => Raise (py e)
     | inr doc => Return doc
     end,
     World (files w) (calls w ++ [CallFitzOpen p])).
Proof.
  unfold PDFExtractor.fitz_open. prims.
  change (World (files w) (calls w ++ [CallFitzOpen p]))
    with (World (files w) (calls w ++ [CallFitzOpen p])).
  destruct w as [f c]. cbn.
  change (PDFExtractor.open_result env (World f (c ++ [CallFitzOpen p])) p)
    with (PDFExtractor.open_result env (World f c) p).
  now destruct (PDFExtractor.open_result env (World f c) p).
Qed.

Lemma extract_text_run (env : Env) (p : string) (w : world) :
  exists r,
    PDFExtractor.extract_text env p w
      = (r, World (files w) (calls w ++ [CallFitzOpen p]))
    /\ ((exists doc tc,
           PDFExtractor.open_result env w p = inr doc
           /\ PDFExtractor.for_pages doc 0 [] = Return tc /\ tc <> []
           /\ r = Return (PyStr.join (nl ++ nl) tc))
        \/ (exists m,
              r = Raise (PyExc ValueError ("Invalid or corrupted PDF file: " ++ m)))
        \/ (exists m,
              r = Raise (PyExc Exception ("Error extracting text from PDF: " ++ m)))).
Proof.
  unfold PDFExtractor.extract_text, try_except, bind.
  rewrite fitz_open_run.
  destruct (PDFExtractor.open_result env w p) as [[c m]|doc] eqn:Eopen.
  - destruct c; cbn; eauto 8.
  - unfold of_result. destruct (PDFExtractor.for_pages doc 0 []) as [tc|e] eqn:Epages.
    + destruct tc as [|t tc]; cbn; [eauto 8|].
      eexists; split; [reflexivity|]. left. exists doc, (t :: tc). eauto 8.
    + destruct e as [[] m|s d]; cbn; eauto 8.
Qed.

Lemma get_page_count_run (env : Env) (p : string) (w : world) :
  exists r,
    PDFExtractor.get_page_count env p w
      = (r, World (files w) (calls w ++ [CallFitzOpen p]))
    /\ ((exists doc,
           PDFExtractor.open_result env w p = inr doc
           /\ r = Return (length doc))
        \/ (exists m, r = Raise (PyExc Exception ("Error reading PDF: " ++ m)))).
Proof.
  unfold PDFExtractor.get_page_count, try_except, bind.
  rewrite fitz_open_run.
  destruct (PDFExtractor.open_result env w p) as [[c m]|doc] eqn:Eopen.
  - destruct c; cbn; eauto 8.
  - cbn. eauto 8.
Qed.

Lemma get_pdf_summary_run (env : Env) (t : string) (w : world) :
  exists r cs,
    get_pdf_summary env t w
      = (r, World (files w)
              (calls w ++ CallCreateSession app_name user_id (session_id env) :: cs))
    /\ ((exists events rt,
           create_session_error env = None
           /\ run_async env user_id (session_id env) (prompt_text t) = (events, None)
           /\ for_events events "" = Return rt
           /\ PyStr.strip rt <> ""
           /\ r = Return (PyStr.strip rt))
        \/ (exists m, r = Raise (adk_failed m))).
Proof.
  unfold adk_failed.
  run.
  destruct (create_session_error env) as [[c m]|] eqn:Ecs.
  - exists (Raise (adk_failed m)), []. destruct c; cbn; eauto 8.
  - destruct (run_async env user_id (session_id env) (prompt_text t))
      as [events failure] eqn:Erun.
    step. rewrite <- List.app_assoc. cbn [List.app].
    destruct (for_events events "") as [rt|e] eqn:Eloop.
    + destruct failure as [[c m]|].
      * destruct c; cbn; eauto 8.
      * destruct (PyStr.strip rt) as [|a s] eqn:Estrip; cbn.
        -- eauto 8.
        -- do 2 eexists. split; [reflexivity|]. left.
           exists events, rt. rewrite Estrip. repeat split; congruence.
    + destruct e as [[] m|s d]; cbn; eauto 8.
Qed.

Lemma get_pdf_summary_failure (env : Env) (t : string) (w : world) (e : lib_error) :
  runtime_raises env t e ->
  fst (get_pdf_summary env t w) = Raise (adk_failed (snd e)).
Proof.
  unfold adk_failed.
  intros [Ecs|events rt Ecs Erun Eloop]; run; rewrite Ecs.
  - destruct e as [[] m]; reflexivity.
  - rewrite Erun, Eloop. destruct e as [[] m]; reflexivity.
Qed.

Lemma extract_text_ok (env : Env) (p : string) (w : world) data doc tc :
  files w !! p = Some data -> pdf_parse env data = inr doc ->
  PDFExtractor.for_pages doc 0 [] = Return tc -> tc <> [] ->
  PDFExtractor.extract_text env p w
    = (Return (PyStr.join (nl ++ nl) tc),
       World (files w) (calls w ++ [CallFitzOpen p])).
Proof.
  intros Hf Hp Hl Hne.
  unfold PDFExtractor.extract_text, try_except, bind.
  rewrite fitz_open_run, (open_result_file env p w data Hf), Hp.
  unfold of_result. rewrite Hl.
  destruct tc; [congruence|reflexivity].
Qed.

Lemma get_page_count_ok (env : Env) (p : string) (w : world) data doc :
  files w !! p = Some data -> pdf_parse env data = inr doc ->
  PDFExtractor.get_page_count env p w
    = (Return (length doc), World (files w) (calls w ++ [CallFitzOpen p])).
Proof.
  intros Hf Hp.
  unfold PDFExtractor.get_page_count, try_except, bind.
  now rewrite fitz_open_run, (open_result_file env p w data Hf), Hp.
Qed.

Lemma get_page_count_opened (env : Env) (p : string) (w : world) doc :
  PDFExtractor.open_result env w p = inr doc ->
  PDFExtractor.get_page_count env p w
    = (Return (length doc), World (files w) (calls w ++ [CallFitzOpen p])).
Proof.
  intros Ho.
  unfold PDFExtractor.get_page_count, try_except, bind.
  now rewrite fitz_open_run, Ho.
Qed.

Lemma extract_and_summarize_run (env : Env) (file : UploadFile) (path : string)
    (st : frame) :
  exists r w2,
    extract_and_summarize env file path st
      = (r, Frame w2 (temp_file st) (temp_file_path st))
    /\ files w2 = files (fw st)
    /\ ((exists doc tc events rt,
           PDFExtractor.open_result env (fw st) path = inr doc
           /\ PDFExtractor.for_pages doc 0 [] = Return tc /\ tc <> []
           /\ create_session_error env = None
           /\ run_async env user_id (session_id env)
                (prompt_text (PyStr.join (nl ++ nl) tc)) = (events, None)
           /\ for_events events "" = Return rt
           /\ PyStr.strip rt <> ""
           /\ r = Return {| summary := PyStr.strip rt;
                            page_count := length doc;
                            file_name := filename file |})
        \/ (exists m,
              r = Raise (HTTPException 400 ("Invalid or corrupted PDF file: " ++ m)))
        \/ (exists d, r = Raise (HTTPException 500 d))).
Proof.
  unfold extract_and_summarize, try_except, bind, in_world.
  destruct (extract_text_run env path (fw st)) as (r1 & E1 & H1). rewrite E1. step.
  destruct H1 as [(doc & tc & Ho & Hl & Hne & ->)|[(m & ->)|(m & ->)]];
    [|cbn; eauto 10..].
  destruct (get_page_count_run env path
              (World (files (fw st)) (calls (fw st) ++ [CallFitzOpen path])))
    as (r2 & E2 & H2).
  rewrite E2. step.
  destruct H2 as [(doc' & Ho' & ->)|(m & ->)]; [|cbn; eauto 10].
  rewrite (open_result_same env path
             (World (files (fw st)) (calls (fw st) ++ [CallFitzOpen path]))
             (fw st) eq_refl), Ho in Ho'.
  injection Ho' as <-.
  unfold ret. step.
  match goal with |- context [get_pdf_summary env ?t ?w] =>
    destruct (get_pdf_summary_run env t w) as (r3 & cs & E3 & H3) end.
  rewrite E3. step.
  destruct H3 as [(events & rt & Hcs & Hrun & Hloop & Hs & ->)|(m & ->)];
    [|cbn; eauto 10].
  do 2 eexists. split; [reflexivity|]. split; [reflexivity|].
  left. exists doc, tc, events, rt. repeat split; assumption.
Qed.

Lemma extract_and_summarize_runtime_failure (env : Env) (file : UploadFile)
    (path : string) (st : frame) data doc tc (e : lib_error) :
  files (fw st) !! path = Some data ->
  pdf_parse env data = inr doc ->
  PDFExtractor.for_pages doc 0 [] = Return tc -> tc <> [] ->
  runtime_raises env (PyStr.join (nl ++ nl) tc) e ->
  fst (extract_and_summarize env file path st)
    = Raise (HTTPException 500
               ("Error generating summary: " ++ str (adk_failed (snd e)))).
Proof.
  intros Hf Hp Hl Hne Hr.
  unfold extract_and_summarize, try_except, bind, in_world.
  rewrite (extract_text_ok env path (fw st) data doc tc Hf Hp Hl Hne). step.
  rewrite (get_page_count_ok env path
             (World (files (fw st)) (calls (fw st) ++ [CallFitzOpen path]))
             data doc Hf Hp).
  unfold ret. step.
  match goal with |- context [get_pdf_summary env ?t ?w] =>
    pose proof (get_pdf_summary_failure env t w e Hr) as Hfail;
    destruct (get_pdf_summary env t w) as [r3 w3] end.
  cbn [fst] in Hfail. subst r3. reflexivity.
Qed.

Lemma upload_pdf_past_gate (env : Env) (file : UploadFile) (w : world) :
  passes_gate env file ->
  upload_pdf env file w
    = (let '(r, st) := process_upload env file (file_bytes file) (Frame w None None)
       in (r, fw st)).
Proof.
  intros [Hext [Hpos Hmax]]. unfold upload_pdf. rewrite Hext. cbn [negb].
  destruct (Z.gtb_spec (Z.of_nat (length (file_bytes file)))
              (MAX_FILE_SIZE_BYTES env)); [lia|].
  destruct (Z.eqb_spec (Z.of_nat (length (file_bytes file))) 0); [lia|].
  reflexivity.
Qed.

Lemma process_upload_staged (env : Env) (file : UploadFile) (data : list Byte.byte)
    (w : world) (name : string) (r : result SummaryResponse) (w2 : world) :
  tempfile_outcome env = inr name ->
  write_error env = None ->
  extract_and_summarize env file name (Frame (staged w name data) (Some name) (Some name))
    = (r, Frame w2 (Some name) (Some name)) ->
  files w2 = files (staged w name data) ->
  answered r ->
  process_upload env file data (Frame w None None)
    = (r, Frame (cleaned env name w2) (Some name) (Some name)).
Proof.
  intros Htmp Hwr Hrun Hfiles Hans.
  assert (Hex : files w2 !! name = Some data).
  { rewrite Hfiles. cbn [staged files]. apply lookup_insert_eq. }
  unfold staged in Hrun.
  unfold process_upload, NamedTemporaryFile, write, set_temp_file,
    set_temp_file_path, cleanup, cleaned, os_path_exists, os_unlink.
  prims. rewrite Htmp. step. rewrite Hwr. step. rewrite Hrun. step.
  destruct r as [resp|[c m|s d]]; [|contradiction|]; step; cbn [isinstance]; step;
    rewrite Hex; step;
    destruct (unlink_error env) as [[[] m]|]; reflexivity.
Qed.

(** ** The request pipeline, path by path *)

Lemma gate_cases (env : Env) (file : UploadFile) :
  passes_gate env file \/ bad_extension file \/ oversize env file
  \/ empty_upload file.
Proof.
  unfold passes_gate, bad_extension, oversize, empty_upload.
  destruct (PyStr.endswith _ _); [|now right; left].
  destruct (file_bytes file) as [|b l]; cbn [length]; [now right; right; right|].
  destruct (Z_gt_dec (Z.of_nat (S (length l))) (MAX_FILE_SIZE_BYTES env)).
  - right; right; left. assumption.
  - left. split; [reflexivity|lia].
Qed.

Lemma upload_pdf_rejected (env : Env) (file : UploadFile) (w : world) :
  bad_extension file \/ oversize env file \/ empty_upload file ->
  exists detail,
    upload_pdf env file w = (Raise (HTTPException 400 detail), w)
    /\ (bad_extension file -> detail = only_pdf_detail)
    /\ (~ bad_extension file -> oversize env file -> detail = size_detail env)
    /\ (~ bad_extension file -> ~ oversize env file -> detail = empty_detail).
Proof.
  unfold bad_extension, oversize, empty_upload, upload_pdf.
  intros Hbad.
  destruct (PyStr.endswith _ _) eqn:Eext; simpl negb; cbv iota.
  - destruct (Z.gtb_spec (Z.of_nat (length (file_bytes file)))
                (MAX_FILE_SIZE_BYTES env)) as [Hgt|Hle].
    + exists (size_detail env). unfold raise.
      split; [reflexivity|]. split; [discriminate|].
      split; [reflexivity|]. intros _ Hn; exfalso; lia.
    + destruct (Z.eqb_spec (Z.of_nat (length (file_bytes file))) 0) as [H0|Hn0].
      * exists empty_detail. unfold raise.
        split; [reflexivity|]. split; [discriminate|].
        split; [intros _ Hn; exfalso; lia|]. reflexivity.
      * exfalso. destruct Hbad as [?|[?|?]]; [discriminate|lia|lia].
  - exists only_pdf_detail. unfold raise.
    split; [reflexivity|]. split; [reflexivity|].
    split; [intros Hn; now destruct Hn|]. intros Hn; now destruct Hn.
Qed.

Lemma process_upload_tempfile_fails (env : Env) (file : UploadFile)
    (data : list Byte.byte) (w : world) (e : lib_error) :
  tempfile_outcome env = inl e ->
  process_upload env file data (Frame w None None)
    = (Raise (HTTPException 500 ("Unexpected error: " ++ snd e)),
       Frame (World (files w) (calls w ++ [CallNamedTemporaryFile])) None None).
Proof.
  intros Htmp.
  unfold process_upload, NamedTemporaryFile, cleanup.
  prims. rewrite Htmp. step. destruct e as [[] m]; reflexivity.
Qed.

Lemma process_upload_write_fails (env : Env) (file : UploadFile)
    (data : list Byte.byte) (w : world) (name : string) (e : lib_error) :
  tempfile_outcome env = inr name ->
  write_error env = Some e ->
  process_upload env file data (Frame w None None)
    = (Raise unbound_temp_file_path,
       Frame (World (<[name := []]> (files w))
                ((calls w ++ [CallNamedTemporaryFile]) ++ [CallWrite name]))
         (Some name) None).
Proof.
  intros Htmp Hwr.
  unfold process_upload, NamedTemporaryFile, write, set_temp_file, cleanup.
  prims. rewrite Htmp. step. rewrite Hwr. step. destruct e as [[] m]; reflexivity.
Qed.

Lemma pipeline_outcome_answered (env : Env) (file : UploadFile)
    (r : result SummaryResponse) :
  pipeline_outcome env file r -> answered r.
Proof.
  intros [(?&?&?&?&?&?&?&?&?&?&?&->)|[(?&->)|(?&->)]]; exact I.
Qed.

(** Every run of [upload_pdf] takes one of four paths. *)
Lemma upload_pdf_cases (env : Env) (file : UploadFile) (w : world) :
  (exists detail,
     ~ passes_gate env file
     /\ upload_pdf env file w = (Raise (HTTPException 400 detail), w)
     /\ (bad_extension file -> detail = only_pdf_detail)
     /\ (~ bad_extension file -> detail = size_detail env \/ detail = empty_detail))
  \/ (exists e,
        passes_gate env file /\ tempfile_outcome env = inl e
        /\ upload_pdf env file w
           = (Raise (HTTPException 500 ("Unexpected error: " ++ snd e)),
              World (files w) (calls w ++ [CallNamedTemporaryFile])))
  \/ (exists name e,
        passes_gate env file /\ tempfile_outcome env = inr name
        /\ write_error env = Some e
        /\ upload_pdf env file w
           = (Raise unbound_temp_file_path,
              World (<[name := []]> (files w))
                ((calls w ++ [CallNamedTemporaryFile]) ++ [CallWrite name])))
  \/ (exists name r w2,
        passes_gate env file /\ tempfile_outcome env = inr name
        /\ write_error env = None
        /\ extract_and_summarize env file name
             (Frame (staged w name (file_bytes file)) (Some name) (Some name))
           = (r, Frame w2 (Some name) (Some name))
        /\ files w2 = files (staged w name (file_bytes file))
        /\ pipeline_outcome env file r
        /\ upload_pdf env file w = (r, cleaned env name w2)).
Proof.
  destruct (gate_cases env file) as [Hgate|Hbad].
  - right. rewrite (upload_pdf_past_gate env file w Hgate).
    destruct (tempfile_outcome env) as [e|name] eqn:Htmp.
    + left. exists e. rewrite (process_upload_tempfile_fails _ _ _ _ _ Htmp). auto.
    + right. destruct (write_error env) as [e|] eqn:Hwr.
      * left. exists name, e.
        rewrite (process_upload_write_fails _ _ _ _ _ _ Htmp Hwr). auto.
      * right.
        destruct (extract_and_summarize_run env file name
                    (Frame (staged w name (file_bytes file)) (Some name) (Some name)))
          as (r & w2 & Hrun & Hfiles & Hshape).
        cbn [fw temp_file temp_file_path] in Hrun, Hfiles.
        assert (Hout : pipeline_outcome env file r).
        { destruct Hshape as [(doc & tc & events & rt & Ho & Hrest)|Hother];
            [left|right; exact Hother].
          cbn [fw] in Ho. rewrite open_result_staged in Ho.
          exists doc, tc, events, rt. split; [exact Ho|exact Hrest]. }
        exists name, r, w2.
        rewrite (process_upload_staged _ _ _ _ _ _ _ Htmp Hwr Hrun Hfiles
                   (pipeline_outcome_answered _ _ _ Hout)).
        auto 10.
  - left. destruct (upload_pdf_rejected env file w Hbad) as (d & Hrun & H1 & H2 & H3).
    exists d. split; [|split; [exact Hrun|split; [exact H1|]]].
    + unfold passes_gate, bad_extension, oversize, empty_upload in *.
      intros [Hext Hsize]. destruct Hbad as [?|[?|?]]; [congruence|lia|lia].
    + intros Hne. destruct (Z_gt_dec (Z.of_nat (length (file_bytes file)))
                              (MAX_FILE_SIZE_BYTES env)); [left|right]; auto.
Qed.

Lemma upload_pdf_staged (env : Env) (file : UploadFile) (w : world) (name : string) :
  passes_gate env file ->
  tempfile_outcome env = inr name ->
  write_error env = None ->
  exists r w2,
    extract_and_summarize env file name
      (Frame (staged w name (file_bytes file)) (Some name) (Some name))
      = (r, Frame w2 (Some name) (Some name))
    /\ files w2 = files (staged w name (file_bytes file))
    /\ pipeline_outcome env file r
    /\ upload_pdf env file w = (r, cleaned env name w2).
Proof.
  intros Hgate Htmp Hwr.
  destruct (upload_pdf_cases env file w)
    as [(d & Hn & _)|[(e & _ & He & _)|[(n & e & _ & _ & He & _)
       |(n & r & w2 & _ & Hn & _ & Hrun & Hfiles & Hans & Hup)]]];
    [contradiction|congruence|congruence|].
  assert (n = name) as -> by congruence.
  exists r, w2. auto.
Qed.

Lemma extract_text_returns (env : Env) (p : string) (w : world) (pdf_text : string) :
  fst (PDFExtractor.extract_text env p w) = Return pdf_text ->
  exists doc tc,
    PDFExtractor.open_result env w p = inr doc
    /\ PDFExtractor.for_pages doc 0 [] = Return tc /\ tc <> []
    /\ pdf_text = PyStr.join (nl ++ nl) tc.
Proof.
  destruct (extract_text_run env p w) as (r & E & H). rewrite E. cbn [fst].
  intros ->.
  destruct H as [(doc & tc & Ho & Hl & Hne & Heq)|[(m & Heq)|(m & Heq)]];
    [|discriminate..].
  injection Heq as ->. exists doc, tc. auto.
Qed.

Lemma cleaned_ends_with_unlink (env : Env) (name : string) (w : world) :
  exists cs, calls (cleaned env name w) = (cs ++ [CallUnlink name])%list.
Proof. now exists (calls w). Qed.

Lemma cleaned_removes (env : Env) (name : string) (w : world) :
  unlink_error env = None -> files (cleaned env name w) !! name = None.
Proof. intros H. unfold cleaned. rewrite H. cbn [files]. apply lookup_delete_eq. Qed.

(** C1 (as amended).  Once the upload is staged (the temp file created and
    written), every run of the handler ends with a call of [os.unlink] on
    the temp file, whatever the outcome; the file no longer exists
    afterwards when that call succeeds; and whether the call fails has no
    influence on the outcome returned to the client. *)
Theorem C1_staged_file_cleanup (env : Env) (file : UploadFile) (w : world)
    (name : string) :
  passes_gate env file ->
  tempfile_outcome env = inr name ->
  write_error env = None ->
  exists r w',
    upload_pdf env file w = (r, w')
    /\ answered r
    /\ (exists cs, calls w' = (cs ++ [CallUnlink name])%list)
    /\ (unlink_error env = None -> files w' !! name = None)
    /\ (forall err, fst (upload_pdf (with_unlink_error env err) file w) = r).
Proof.
  intros Hgate Htmp Hwr.
  destruct (upload_pdf_staged env file w name Hgate Htmp Hwr)
    as (r & w2 & Hrun & Hfiles & Hans & Hup).
  exists r, (cleaned env name w2). split; [exact Hup|].
  split; [exact (pipeline_outcome_answered _ _ _ Hans)|].
  split; [apply cleaned_ends_with_unlink|]. split; [apply cleaned_removes|].
  intros err.
  destruct (upload_pdf_staged (with_unlink_error env err) file w name Hgate Htmp Hwr)
    as (r' & w2' & Hrun' & _ & _ & Hup').
  rewrite Hup'. cbn [fst].
  change (extract_and_summarize (with_unlink_error env err) file name)
    with (extract_and_summarize env file name) in Hrun'.
  congruence.
Qed.

Lemma C1_witness :
  exists r w',
    upload_pdf sample_env sample_file empty_world = (r, w')
    /\ files w' !! "/tmp/tmpab12cd.pdf" = None.
Proof.
  destruct (C1_staged_file_cleanup sample_env sample_file empty_world
              "/tmp/tmpab12cd.pdf") as (r & w' & Hup & _ & _ & Hgone & _).
  - split; [reflexivity|]. vm_compute. split; [reflexivity|discriminate].
  - reflexivity.
  - reflexivity.
  - exists r, w'. split; [exact Hup|]. apply Hgone. reflexivity.
Defined.

Lemma C1_counterexample :
  let env := with_unlink_error sample_env (Some permission_denied) in
  passes_gate env sample_file
  /\ tempfile_outcome env = inr "/tmp/tmpab12cd.pdf"
  /\ fst (upload_pdf env sample_file empty_world)
     = Return {| summary := "A short summary."; page_count := 3;
                 file_name := "Report.PDF" |}
  /\ files (snd (upload_pdf env sample_file empty_world)) !! "/tmp/tmpab12cd.pdf"
     = Some pdf_magic.
Proof.
  cbv zeta. split; [|split; [|split]].
  - split; [reflexivity|]. vm_compute. split; [reflexivity|discriminate].
  - reflexivity.
  - vm_compute. reflexivity.
  - vm_compute. reflexivity.
Qed.

(** The write to the temp file failing: [temp_file_path] is still unbound
    when the [finally] block reads it, so the block raises, the answer
    prepared by the [except] clause is lost, and the temp file stays. *)
Example write_failure_skips_cleanup :
  let env := {| MAX_FILE_SIZE_MB := 10;
                tempfile_outcome := inr "/tmp/tmpab12cd.pdf";
                write_error := Some (OSError, "[Errno 28] No space left on device");
                pdf_parse := pdf_parse sample_env;
                open_absent := open_absent sample_env;
                unlink_error := None;
                uuid4 := uuid4 sample_env;
                create_session_error := None;
                run_async := run_async sample_env |} in
  fst (upload_pdf env sample_file empty_world) = Raise unbound_temp_file_path
  /\ files (snd (upload_pdf env sample_file empty_world)) !! "/tmp/tmpab12cd.pdf"
     = Some [].
Proof. cbv zeta. split; vm_compute; reflexivity. Qed.

(** The part of the extraction error mapping that the handler does
    implement: a document the library rejects as invalid is answered 400,
    any other failure to open it is answered 500. *)
Lemma open_failure_status (env : Env) (file : UploadFile) (w : world)
    (name : string) (e : lib_error) :
  passes_gate env file ->
  tempfile_outcome env = inr name ->
  write_error env = None ->
  pdf_parse env (file_bytes file) = inl e ->
  fst (upload_pdf env file w)
    = if issubclass (fst e) FileDataError
      then Raise (HTTPException 400 ("Invalid or corrupted PDF file: " ++ snd e))
      else Raise (HTTPException 500
                    ("Error processing PDF: Error extracting text from PDF: " ++ snd e)).
Proof.
  intros Hgate Htmp Hwr Hp.
  destruct (upload_pdf_staged env file w name Hgate Htmp Hwr)
    as (r & w2 & Hrun & _ & _ & Hup).
  rewrite Hup. cbn [fst].
  revert Hrun. unfold extract_and_summarize, PDFExtractor.extract_text.
  unfold try_except, bind, in_world. rewrite fitz_open_run. step.
  rewrite open_result_staged, Hp. step.
  destruct e as [[] m]; cbn [fst snd];
    repeat (classes; prims; cbn [isinstance py fst snd str]);
    intros Hrun; injection Hrun as <- _; reflexivity.
Qed.

(** C2.  The handler run on a PDF none of whose pages has text: the
    [ValueError] raised inside the [try] block of [extract_text] is caught
    by its own [except Exception] clause and leaves as a plain
    [Exception], which the handler answers with status 500. *)
Theorem C2_textless_pdf_answered_500 :
  fst (upload_pdf (with_pdf sample_env (inr [inr ""; inr "  "]))
         sample_file empty_world)
  = Raise (HTTPException 500
      "Error processing PDF: Error extracting text from PDF: No text content found in PDF").
Proof. vm_compute. reflexivity. Qed.

(** ** The summarization client *)

Lemma for_parts_cat (ps : list Part) (acc : string) :
  for_parts ps acc = acc ++ cat (flat_map part_fragments ps).
Proof.
  revert acc. induction ps as [|part ps IH]; intros acc.
  - cbn. now rewrite app_empty_r.
  - cbn [for_parts flat_map]. rewrite cat_app. unfold part_fragments at 1.
    destruct (text part) as [| |t]; cbn [cat fold_right]; rewrite ?app_empty_l;
      try apply IH.
    rewrite app_empty_r.
    destruct t as [|a t]; cbn [PyStr.truthy]; rewrite IH.
    + now rewrite app_empty_l.
    + now rewrite app_assoc_s.
Qed.

Lemma for_events_cat (events : list Event) (acc rt : string) :
  for_events events acc = Return rt ->
  rt = acc ++ cat (all_fragments events).
Proof.
  revert acc. induction events as [|ev events IH]; intros acc H.
  - cbn in H. injection H as <-. cbn. now rewrite app_empty_r.
  - cbn [for_events] in H. unfold all_fragments. cbn [flat_map].
    rewrite cat_app. fold (all_fragments events). unfold event_fragments.
    destruct (content ev) as [| |c]; cbn [cat fold_right]; rewrite ?app_empty_l;
      try (apply IH; exact H).
    destruct (parts c) as [| |ps]; cbn [cat fold_right]; rewrite ?app_empty_l;
      try (apply IH; exact H); [discriminate|].
    rewrite (IH _ H), for_parts_cat. now rewrite app_assoc_s.
Qed.

Lemma for_events_total (events : list Event) (acc : string) :
  no_null_parts events ->
  for_events events acc = Return (acc ++ cat (all_fragments events)).
Proof.
  intros Hwf. revert acc. induction Hwf as [|ev events Hev _ IH]; intros acc.
  - cbn. now rewrite app_empty_r.
  - destruct (for_events (ev :: events) acc) as [rt|e] eqn:E.
    + now rewrite (for_events_cat _ _ _ E).
    + exfalso. cbn [for_events] in E.
      destruct (content ev) as [| |c] eqn:Ec; try (rewrite IH in E; discriminate).
      specialize (Hev c eq_refl).
      destruct (parts c) as [| |ps]; try (rewrite IH in E; discriminate).
      now apply Hev.
Qed.

Lemma get_pdf_summary_ok (env : Env) (t : string) (w : world) events rt :
  create_session_error env = None ->
  run_async env user_id (session_id env) (prompt_text t) = (events, None) ->
  for_events events "" = Return rt ->
  PyStr.strip rt <> "" ->
  fst (get_pdf_summary env t w) = Return (PyStr.strip rt).
Proof.
  intros Hcs Hrun Hloop Hs. run. rewrite Hcs. step. rewrite Hrun, Hloop. step.
  destruct (PyStr.strip rt); [congruence|reflexivity].
Qed.

Lemma get_pdf_summary_blank (env : Env) (t : string) (w : world) events rt :
  create_session_error env = None ->
  run_async env user_id (session_id env) (prompt_text t) = (events, None) ->
  for_events events "" = Return rt ->
  PyStr.strip rt = "" ->
  fst (get_pdf_summary env t w) = Raise (adk_failed no_response_message).
Proof.
  intros Hcs Hrun Hloop Hs. run. rewrite Hcs. step. rewrite Hrun, Hloop. step.
  rewrite Hs. reflexivity.
Qed.

Lemma get_pdf_summary_returns (env : Env) (t : string) (w : world) (s : string) :
  fst (get_pdf_summary env t w) = Return s ->
  exists events rt,
    create_session_error env = None
    /\ run_async env user_id (session_id env) (prompt_text t) = (events, None)
    /\ for_events events "" = Return rt
    /\ PyStr.strip rt <> "" /\ s = PyStr.strip rt.
Proof.
  destruct (get_pdf_summary_run env t w) as (r & cs & E & H). rewrite E. cbn [fst].
  intros ->.
  destruct H as [(events & rt & Hcs & Hrun & Hloop & Hs & Heq)|(m & Heq)];
    [|discriminate].
  injection Heq as ->. exists events, rt. auto.
Qed.

Lemma upload_pdf_returns (env : Env) (file : UploadFile) (w w' : world)
    (resp : SummaryResponse) :
  upload_pdf env file w = (Return resp, w') ->
  exists name doc tc events rt,
    passes_gate env file /\ tempfile_outcome env = inr name
    /\ write_error env = None
    /\ pdf_parse env (file_bytes file) = inr doc
    /\ PDFExtractor.for_pages doc 0 [] = Return tc /\ tc <> []
    /\ create_session_error env = None
    /\ run_async env user_id (session_id env)
         (prompt_text (PyStr.join (nl ++ nl) tc)) = (events, None)
    /\ for_events events "" = Return rt
    /\ PyStr.strip rt <> ""
    /\ resp = {| summary := PyStr.strip rt;
                 page_count := length doc;
                 file_name := filename file |}.
Proof.
  intros Hup.
  destruct (upload_pdf_cases env file w)
    as [(d & _ & H & _)|[(e & _ & _ & H)|[(n & e & _ & _ & _ & H)
       |(n & r & w2 & Hg & Hn & Hwr & _ & _ & Hout & H)]]];
    rewrite H in Hup; try discriminate.
  injection Hup as -> _.
  destruct Hout as [(doc & tc & events & rt & Hp & Hl & Hne & Hcs & Hrun & Hloop & Hs & Heq)
                   |[(m & Heq)|(d & Heq)]]; [|discriminate..].
  injection Heq as ->.
  exists n, doc, tc, events, rt. auto 12.
Qed.

(** C5.  A successful run returns the response model with exactly three
    fields: the summary that the summarization client returned for the
    extracted text, the number of pages of the parsed document (every page,
    whether or not its text was kept), and the filename of the upload. *)
Theorem C5_success_response (env : Env) (file : UploadFile) (w w' : world)
    (resp : SummaryResponse) :
  upload_pdf env file w = (Return resp, w') ->
  exists name doc pdf_text,
    tempfile_outcome env = inr name
    /\ pdf_parse env (file_bytes file) = inr doc
    /\ fst (PDFExtractor.extract_text env name (staged w name (file_bytes file)))
       = Return pdf_text
    /\ fst (PDFExtractor.get_page_count env name (staged w name (file_bytes file)))
       = Return (length doc)
    /\ (forall w1, fst (get_pdf_summary env pdf_text w1) = Return (summary resp))
    /\ resp = {| summary := summary resp;
                 page_count := length doc;
                 file_name := filename file |}.
Proof.
  intros Hup.
  destruct (upload_pdf_returns env file w w' resp Hup)
    as (name & doc & tc & events & rt & _ & Htmp & _ & Hp & Hl & Hne & Hcs & Hrun
        & Hloop & Hs & ->).
  assert (Hf : files (staged w name (file_bytes file)) !! name = Some (file_bytes file))
    by apply lookup_insert_eq.
  exists name, doc, (PyStr.join (nl ++ nl) tc).
  split; [exact Htmp|]. split; [exact Hp|].
  split; [now rewrite (extract_text_ok _ _ _ _ _ _ Hf Hp Hl Hne)|].
  split; [now rewrite (get_page_count_ok _ _ _ _ _ Hf Hp)|].
  split; [|reflexivity].
  intros w1. cbn [summary]. exact (get_pdf_summary_ok _ _ _ _ _ Hcs Hrun Hloop Hs).
Qed.

Lemma C5_witness :
  exists doc,
    pdf_parse sample_env (file_bytes sample_file) = inr doc
    /\ length doc = 3
    /\ fst (upload_pdf sample_env sample_file empty_world)
       = Return {| summary := "A short summary."; page_count := length doc;
                   file_name := "Report.PDF" |}.
Proof.
  assert (Hup : upload_pdf sample_env sample_file empty_world
                = (Return {| summary := "A short summary."; page_count := 3;
                             file_name := "Report.PDF" |},
                   snd (upload_pdf sample_env sample_file empty_world))).
  { vm_compute. reflexivity. }
  destruct (C5_success_response _ _ _ _ _ Hup)
    as (name & doc & text & _ & Hp & _ & _ & _ & Heq).
  exists doc. split; [exact Hp|].
  injection Heq as Hlen. split; [now symmetry|].
  rewrite Hup. cbn [fst]. now rewrite <- Hlen.
Defined.

Lemma adk_failed_contains (m : string) : PyStr.contains (str (adk_failed m)) m.
Proof. apply contains_intro. Qed.

Lemma summary_detail_contains (m : string) :
  PyStr.contains ("Error generating summary: " ++ str (adk_failed m)) m.
Proof.
  exists ("Error generating summary: " ++ "Google ADK failed to generate summary. Error: "),
    ". This helps identify ADK configuration or integration issues.".
  cbn [str adk_failed]. now rewrite !app_assoc_s.
Qed.

(** C6 (as amended).  When the model runtime raises during summarization,
    [get_pdf_summary] raises an [Exception] whose message contains the
    original error text, the handler answers 500 with a detail containing
    that text, and the handler still calls [os.unlink] on the temp file,
    which no longer exists afterwards when that call succeeds. *)
Theorem C6_runtime_failure_answered_500 (env : Env) (file : UploadFile) (w : world)
    (name pdf_text : string) (e : lib_error) :
  passes_gate env file ->
  tempfile_outcome env = inr name ->
  write_error env = None ->
  fst (PDFExtractor.extract_text env name (staged w name (file_bytes file)))
    = Return pdf_text ->
  runtime_raises env pdf_text e ->
  exists m detail w',
    (forall w1, fst (get_pdf_summary env pdf_text w1) = Raise (PyExc Exception m))
    /\ PyStr.contains m (snd e)
    /\ upload_pdf env file w = (Raise (HTTPException 500 detail), w')
    /\ PyStr.contains detail (snd e)
    /\ (exists cs, calls w' = (cs ++ [CallUnlink name])%list)
    /\ (unlink_error env = None -> files w' !! name = None).
Proof.
  intros Hgate Htmp Hwr Hext Hraise.
  destruct (extract_text_returns _ _ _ _ Hext)
    as (doc & tc & Hp & Hl & Hne & ->).
  rewrite open_result_staged in Hp.
  assert (Hf : files (staged w name (file_bytes file)) !! name = Some (file_bytes file))
    by apply lookup_insert_eq.
  destruct (upload_pdf_staged env file w name Hgate Htmp Hwr)
    as (r & w2 & Hrun & _ & _ & Hup).
  pose proof (extract_and_summarize_runtime_failure env file name
                (Frame (staged w name (file_bytes file)) (Some name) (Some name))
                (file_bytes file) doc tc e Hf Hp Hl Hne Hraise) as Hfail.
  rewrite Hrun in Hfail. cbn [fst] in Hfail. subst r.
  exists (str (adk_failed (snd e))),
    ("Error generating summary: " ++ str (adk_failed (snd e))),
    (cleaned env name w2).
  split; [intros w1; exact (get_pdf_summary_failure _ _ _ _ Hraise)|].
  split; [apply adk_failed_contains|].
  split; [exact Hup|].
  split; [apply summary_detail_contains|].
  split; [apply cleaned_ends_with_unlink|apply cleaned_removes].
Qed.

Lemma C6_witness :
  exists detail,
    fst (upload_pdf (with_runtime sample_env [] (Some connection_refused))
           sample_file empty_world)
      = Raise (HTTPException 500 detail)
    /\ PyStr.contains detail (snd connection_refused).
Proof.
  destruct (C6_runtime_failure_answered_500
              (with_runtime sample_env [] (Some connection_refused))
              sample_file empty_world "/tmp/tmpab12cd.pdf"
              (PyStr.join (nl ++ nl)
                 [PDFExtractor.page_entry 0 "Intro"; PDFExtractor.page_entry 2 "End"])
              connection_refused)
    as (m & detail & w' & _ & _ & Hup & Hc & _).
  - split; [reflexivity|]. vm_compute. split; [reflexivity|discriminate].
  - reflexivity.
  - reflexivity.
  - vm_compute. reflexivity.
  - apply raises_in_run_async with (events := []) (response_text := "");
      reflexivity.
  - exists detail. rewrite Hup. split; [reflexivity|exact Hc].
Defined.

Lemma C6_counterexample :
  let env := with_unlink_error
               (with_runtime sample_env [] (Some connection_refused))
               (Some permission_denied) in
  runtime_raises env
    (PyStr.join (nl ++ nl)
       [PDFExtractor.page_entry 0 "Intro"; PDFExtractor.page_entry 2 "End"])
    connection_refused
  /\ fst (upload_pdf env sample_file empty_world)
     = Raise (HTTPException 500
         "Error generating summary: Google ADK failed to generate summary. Error: [Errno 111] Connection refused. This helps identify ADK configuration or integration issues.")
  /\ files (snd (upload_pdf env sample_file empty_world)) !! "/tmp/tmpab12cd.pdf"
     = Some pdf_magic.
Proof.
  cbv zeta. split; [|split].
  - apply raises_in_run_async with (events := []) (response_text := "");
      reflexivity.
  - vm_compute. reflexivity.
  - vm_compute. reflexivity.
Qed.

(** C7.  When the text collected from the events is empty or white space
    only, [get_pdf_summary] raises: in every such call the outcome is an
    exception, and when nothing else went wrong it is the exception
    carrying the no-response message.  Hence every returned summary, and
    the summary of every successful response, contains a character that is
    not white space. *)
Theorem C7_blank_generation_is_failure (env : Env) :
  (forall pdf_text w events failure,
     run_async env user_id (session_id env) (prompt_text pdf_text)
       = (events, failure) ->
     whitespace_only (cat (all_fragments events)) = true ->
     exists m, fst (get_pdf_summary env pdf_text w) = Raise (adk_failed m))
  /\ (forall pdf_text w events,
        create_session_error env = None ->
        run_async env user_id (session_id env) (prompt_text pdf_text)
          = (events, None) ->
        no_null_parts events ->
        whitespace_only (cat (all_fragments events)) = true ->
        fst (get_pdf_summary env pdf_text w)
          = Raise (adk_failed no_response_message))
  /\ (forall pdf_text w s,
        fst (get_pdf_summary env pdf_text w) = Return s ->
        s <> "" /\ whitespace_only s = false)
  /\ (forall file w resp,
        fst (upload_pdf env file w) = Return resp ->
        summary resp <> "" /\ whitespace_only (summary resp) = false).
Proof.
  split; [|split; [|split]].
  - intros t w events failure Hrun Hblank. apply strip_empty_iff in Hblank.
    destruct (get_pdf_summary_run env t w) as (r & cs & E & H). rewrite E. cbn [fst].
    destruct H as [(events' & rt & Hcs & Hrun' & Hloop & Hs & ->)|(m & ->)];
      [exfalso|now exists m].
    rewrite Hrun in Hrun'. injection Hrun' as <- _.
    rewrite (for_events_cat _ _ _ Hloop), app_empty_l in Hs. contradiction.
  - intros t w events Hcs Hrun Hwf Hblank. apply strip_empty_iff in Hblank.
    apply (get_pdf_summary_blank env t w events (cat (all_fragments events)));
      try assumption.
    now rewrite (for_events_total events "" Hwf), app_empty_l.
  - intros t w s H.
    destruct (get_pdf_summary_returns _ _ _ _ H) as (ev & rt & _ & _ & _ & Hs & ->).
    split; [exact Hs|now apply trimmed_not_blank].
  - intros file w resp H.
    destruct (upload_pdf env file w) as [r w'] eqn:Hup. cbn [fst] in H. subst r.
    destruct (upload_pdf_returns _ _ _ _ _ Hup)
      as (name & doc & tc & events & rt & _ & _ & _ & _ & _ & _ & _ & _ & _ & Hs & ->).
    cbn [summary]. split; [exact Hs|now apply trimmed_not_blank].
Qed.

Lemma C7_witness :
  cat (all_fragments nbsp_events) = nbsp ++ nel ++ nbsp
  /\ fst (get_pdf_summary (with_runtime sample_env nbsp_events None) "text" empty_world)
     = Raise (adk_failed no_response_message).
Proof.
  split; [reflexivity|].
  destruct (C7_blank_generation_is_failure (with_runtime sample_env nbsp_events None))
    as (_ & H & _).
  apply (H "text" empty_world nbsp_events).
  - reflexivity.
  - reflexivity.
  - repeat constructor; cbn; intros c Hc; inversion Hc; subst; discriminate.
  - vm_compute. reflexivity.
Defined.

(** C8 (as amended).  The summary [get_pdf_summary] returns is the
    concatenation of the text fragments of the events, in event order and
    within an event in part order, with leading and trailing white space
    removed; and it does return it whenever the session is created, the
    event stream ends normally, no event has a null part list and the
    concatenation is not white space only.  Removing white space at both
    ends leaves exactly one string. *)
Theorem C8_summary_is_stripped_concatenation (env : Env) (pdf_text : string) :
  (forall w s,
     fst (get_pdf_summary env pdf_text w) = Return s ->
     trimmed_from
       (cat (all_fragments
               (fst (run_async env user_id (session_id env) (prompt_text pdf_text)))))
       s
     /\ s = PyStr.strip
              (cat (all_fragments
                      (fst (run_async env user_id (session_id env)
                              (prompt_text pdf_text))))))
  /\ (forall w events,
        create_session_error env = None ->
        run_async env user_id (session_id env) (prompt_text pdf_text)
          = (events, None) ->
        no_null_parts events ->
        whitespace_only (cat (all_fragments events)) = false ->
        exists s,
          fst (get_pdf_summary env pdf_text w) = Return s
          /\ trimmed_from (cat (all_fragments events)) s
          /\ s = PyStr.strip (cat (all_fragments events)))
  /\ (forall full s1 s2, trimmed_from full s1 -> trimmed_from full s2 -> s1 = s2).
Proof.
  split; [|split].
  - intros w s H.
    destruct (get_pdf_summary_returns _ _ _ _ H)
      as (events & rt & _ & Hrun & Hloop & _ & ->).
    rewrite Hrun. cbn [fst].
    rewrite (for_events_cat _ _ _ Hloop), app_empty_l.
    split; [apply strip_trimmed|reflexivity].
  - intros w events Hcs Hrun Hwf Hs.
    exists (PyStr.strip (cat (all_fragments events))).
    split; [|split; [apply strip_trimmed|reflexivity]].
    apply (get_pdf_summary_ok env pdf_text w events (cat (all_fragments events)));
      try assumption.
    + now rewrite (for_events_total events "" Hwf), app_empty_l.
    + intros E. apply strip_empty_iff in E. congruence.
  - intros full s1 s2 H1 H2.
    apply trimmed_from_strip in H1, H2. congruence.
Qed.

Lemma C8_witness :
  cat (all_fragments padded_events) = nbsp ++ "A short summary." ++ nel
  /\ fst (get_pdf_summary (with_runtime sample_env padded_events None)
            "text" empty_world)
     = Return "A short summary.".
Proof.
  split; [reflexivity|].
  destruct (C8_summary_is_stripped_concatenation
              (with_runtime sample_env padded_events None) "text") as (_ & H & _).
  destruct (H empty_world padded_events) as (s & Hs & _ & ->).
  - reflexivity.
  - reflexivity.
  - repeat constructor; cbn; intros c Hc; inversion Hc; subst; discriminate.
  - vm_compute. reflexivity.
  - rewrite Hs. vm_compute. reflexivity.
Defined.

Lemma C8_counterexample :
  run_async sample_env user_id (session_id sample_env) (prompt_text "text")
    = (sample_events, None)
  /\ cat (all_fragments sample_events) = " A short summary. "
  /\ fst (get_pdf_summary sample_env "text" empty_world) = Return "A short summary."
  /\ fst (get_pdf_summary sample_env "text" empty_world)
     <> Return (cat (all_fragments sample_events)).
Proof.
  split; [reflexivity|]. split; [reflexivity|].
  split; [vm_compute; reflexivity|]. vm_compute. discriminate.
Qed.

(** ** Session identifiers *)

Lemma length_app_s (a b : string) : String.length (a ++ b) = String.length a + String.length b.
Proof. induction a as [|c a IH]; [reflexivity|]. rewrite app_cons. cbn. now rewrite IH. Qed.

Lemma length_hex_fixed (k : nat) (n : N) : String.length (hex_fixed k n) = k.
Proof.
  revert n. induction k as [|k IH]; intros n; [reflexivity|].
  cbn [hex_fixed]. rewrite length_app_s, IH. cbn. lia.
Qed.

Lemma hex_fixed_split (a b : nat) (n : N) :
  hex_fixed (a + b) n = hex_fixed a (n / 16 ^ N.of_nat b) ++ hex_fixed b n.
Proof.
  revert n. induction b as [|b IH]; intros n.
  - rewrite Nat.add_0_r. cbn [hex_fixed N.of_nat]. rewrite N.pow_0_r, N.div_1_r.
    now rewrite app_empty_r.
  - rewrite Nat.add_succ_r. cbn [hex_fixed]. rewrite IH, app_assoc_s.
    rewrite Nat2N.inj_succ, N.pow_succ_r', N.Div0.div_div by lia.
    reflexivity.
Qed.

Lemma substring_prefix (a b : string) :
  String.substring 0 (String.length a) (a ++ b) = a.
Proof.
  induction a as [|c a IH].
  - cbn. now destruct b.
  - rewrite app_cons. cbn. now rewrite IH.
Qed.

Lemma session_id_digits (env : Env) :
  session_id env = "pdf_session_" ++ hex_fixed 8 (uuid4 env / 2 ^ 96).
Proof.
  unfold session_id, uuid_hex. f_equal.
  change 32 with (8 + 24). rewrite hex_fixed_split.
  change (16 ^ N.of_nat 24)%N with (2 ^ 96)%N.
  rewrite <- (length_hex_fixed 8 (uuid4 env / 2 ^ 96)) at 1.
  apply substring_prefix.
Qed.

Lemma hex_value_digit (n : N) : (n < 16)%N -> hex_value (hex_digit n) = n.
Proof.
  intros H.
  assert (Hn : n = N.of_nat (N.to_nat n)) by now rewrite N2Nat.id.
  assert (Hlt : N.to_nat n < 16) by lia.
  rewrite Hn. generalize dependent (N.to_nat n). intros m _ Hm.
  do 16 (destruct m as [|m]; [reflexivity|]). lia.
Qed.

Lemma app_inj_last (a b : string) (c d : ascii) :
  String.length a = String.length b ->
  a ++ String c "" = b ++ String d "" -> a = b /\ c = d.
Proof.
  revert b. induction a as [|x a IH]; intros [|y b] Hlen H; try discriminate.
  - rewrite !app_empty_l in H. now injection H.
  - rewrite !app_cons in H. injection H as -> H.
    cbn in Hlen. injection Hlen as Hlen.
    destruct (IH b Hlen H) as [-> ->]. auto.
Qed.

Lemma hex_fixed_eq (k : nat) (a b : N) :
  hex_fixed k a = hex_fixed k b <-> (a mod 16 ^ N.of_nat k = b mod 16 ^ N.of_nat k)%N.
Proof.
  revert a b. induction k as [|k IH]; intros a b.
  - cbn. rewrite !N.mod_1_r. tauto.
  - cbn [hex_fixed]. rewrite Nat2N.inj_succ, N.pow_succ_r'.
    rewrite !N.Div0.mod_mul_r.
    assert (Ha : (a mod 16 < 16)%N) by (apply N.mod_lt; lia).
    assert (Hb : (b mod 16 < 16)%N) by (apply N.mod_lt; lia).
    split.
    + intros H. apply app_inj_last in H; [|now rewrite !length_hex_fixed].
      destruct H as [H1 H2]. apply IH in H1.
      apply (f_equal hex_value) in H2. rewrite !hex_value_digit in H2 by assumption.
      lia.
    + intros H.
      assert (H0 : (a mod 16 = b mod 16)%N).
      { apply (f_equal (fun x => x mod 16)%N) in H.
        rewrite !(N.mul_comm 16), !N.Div0.mod_add, !N.Div0.mod_mod in H. exact H. }
      assert (H1 : ((a / 16) mod 16 ^ N.of_nat k = (b / 16) mod 16 ^ N.of_nat k)%N) by lia.
      apply IH in H1. now rewrite H0, H1.
Qed.

(** C9 (as amended).  Every summarization call creates its session under
    the constant user ID [pdf_user] and the session ID made of
    [pdf_session_] and the first eight hexadecimal digits of the UUID it
    draws; two calls have the same identifier pair exactly when their UUIDs
    agree on their 32 most significant bits. *)
Theorem C9_session_identifiers (env : Env) (pdf_text : string) (w : world) :
  (exists r cs,
     get_pdf_summary env pdf_text w
       = (r, World (files w)
               (calls w ++ CallCreateSession "pdf_summarizer" "pdf_user"
                             ("pdf_session_" ++ hex_fixed 8 (uuid4 env / 2 ^ 96))
                           :: cs)))
  /\ (forall env',
        (user_id, session_id env) = (user_id, session_id env')
        <-> ((uuid4 env / 2 ^ 96) mod 2 ^ 32
             = (uuid4 env' / 2 ^ 96) mod 2 ^ 32)%N).
Proof.
  split.
  - destruct (get_pdf_summary_run env pdf_text w) as (r & cs & E & _).
    exists r, cs. rewrite E, session_id_digits. reflexivity.
  - intros env'. rewrite !session_id_digits.
    change (2 ^ 32)%N with (16 ^ N.of_nat 8)%N. rewrite <- hex_fixed_eq.
    split.
    + intros H. apply (f_equal snd) in H. cbn [snd] in H.
      now apply (inj (String.append "pdf_session_")) in H.
    + now intros ->.
Qed.

Lemma C9_counterexample :
  let env1 := with_uuid4 sample_env 0xdeadbeef00004000800000000000002a in
  let env2 := with_uuid4 sample_env 0xdeadbeef00004000800000000000002b in
  uuid4 env1 <> uuid4 env2
  /\ (user_id, session_id env1) = ("pdf_user", "pdf_session_deadbeef")
  /\ (user_id, session_id env2) = ("pdf_user", "pdf_session_deadbeef")
  /\ head (calls (snd (get_pdf_summary env1 "first document" empty_world)))
     = Some (CallCreateSession "pdf_summarizer" "pdf_user" "pdf_session_deadbeef")
  /\ head (calls (snd (get_pdf_summary env2 "second document" empty_world)))
     = Some (CallCreateSession "pdf_summarizer" "pdf_user" "pdf_session_deadbeef").
Proof.
  cbv zeta. split; [vm_compute; discriminate|].
  repeat split; vm_compute; reflexivity.
Qed.

(** ** The text extractor on a well-formed document *)

Lemma for_pages_texts (texts : list string) (k : nat) (acc : list string) :
  PDFExtractor.for_pages (map inr texts) k acc
    = Return (acc ++ map entry_of
                       (List.filter (fun it => has_text (snd it)) (numbered k texts)))%list.
Proof.
  revert k acc. induction texts as [|t texts IH]; intros k acc.
  - cbn. now rewrite List.app_nil_r.
  - cbn [map PDFExtractor.for_pages numbered List.filter snd].
    unfold has_text at 1. destruct (PyStr.truthy (PyStr.strip t)); rewrite IH.
    + now rewrite <- List.app_assoc.
    + reflexivity.
Qed.

Lemma numbered_In (texts : list string) (k i : nat) (t : string) :
  In (i, t) (numbered k texts) <-> k <= i /\ texts !! (i - k) = Some t.
Proof.
  revert k. induction texts as [|x texts IH]; intros k; cbn [numbered In].
  - split; [tauto|]. intros [_ H]. discriminate.
  - rewrite IH. split.
    + intros [H|[Hle H]].
      * injection H as <- <-. rewrite Nat.sub_diag. split; [lia|reflexivity].
      * split; [lia|]. replace (i - k) with (S (i - S k)) by lia. exact H.
    + intros [Hle H]. destruct (i - k) as [|j] eqn:E.
      * left. cbn in H. injection H as ->. f_equal. lia.
      * right. split; [lia|]. replace (i - S k) with j by lia. exact H.
Qed.

Lemma numbered_all_kept (texts : list string) (k : nat) :
  Forall (fun t => has_text t = true) texts ->
  List.filter (fun it => has_text (snd it)) (numbered k texts) = numbered k texts.
Proof.
  intros H. revert k. induction H as [|t texts Ht _ IH]; intros k; [reflexivity|].
  cbn [numbered List.filter snd]. now rewrite Ht, IH.
Qed.

Lemma numbered_indices (texts : list string) (k : nat) :
  map fst (numbered k texts) = seq k (length texts).
Proof.
  revert k. induction texts as [|t texts IH]; intros k; [reflexivity|].
  cbn. now rewrite IH.
Qed.

Lemma blank_pages_not_kept (texts : list string) (k : nat) :
  Forall (fun t => PyStr.truthy (PyStr.strip t) = false) texts ->
  List.filter (fun it => has_text (snd it)) (numbered k texts) = [].
Proof.
  intros H. revert k. induction H as [|t texts Ht _ IH]; intros k; [reflexivity|].
  cbn [numbered List.filter snd]. unfold has_text at 1. now rewrite Ht, IH.
Qed.

(** A document that opens and whose pages all lack text is answered 500 by
    the handler, whatever the rest of the environment: the [ValueError]
    of [extract_text] never reaches the [except ValueError] clause. *)
Lemma textless_document_answered_500 (env : Env) (file : UploadFile) (w : world)
    (name : string) (texts : list string) :
  passes_gate env file ->
  tempfile_outcome env = inr name ->
  write_error env = None ->
  pdf_parse env (file_bytes file) = inr (map inr texts) ->
  Forall (fun t => PyStr.truthy (PyStr.strip t) = false) texts ->
  fst (upload_pdf env file w)
    = Raise (HTTPException 500
        "Error processing PDF: Error extracting text from PDF: No text content found in PDF").
Proof.
  intros Hgate Htmp Hwr Hp Hblank.
  destruct (upload_pdf_staged env file w name Hgate Htmp Hwr)
    as (r & w2 & Hrun & _ & _ & Hup).
  rewrite Hup. cbn [fst].
  revert Hrun. unfold extract_and_summarize, PDFExtractor.extract_text.
  unfold try_except, bind, in_world. rewrite fitz_open_run. step.
  rewrite open_result_staged, Hp. step. unfold of_result.
  rewrite for_pages_texts, (blank_pages_not_kept texts 0 Hblank).
  cbn [map List.app]. repeat (classes; prims; cbn [isinstance py fst snd str]).
  intros Hrun; injection Hrun as <- _; reflexivity.
Qed.

Lemma join_blank_line (entries : list string) :
  PyStr.join (nl ++ nl) entries = blank_line_separated entries.
Proof.
  unfold PyStr.join. induction entries as [|entry rest IH]; [reflexivity|].
  cbn [String.concat blank_line_separated]. destruct rest as [|next rest];
    [reflexivity|].
  now rewrite IH, app_assoc_s.
Qed.

Lemma kept_pages_with_text (texts : list string) :
  kept_pages texts = pages_with_text texts.
Proof.
  unfold kept_pages, pages_with_text. apply List.filter_ext.
  intros [i t]. apply has_text_spec.
Qed.

Lemma entry_of_marked : forall it, entry_of it = marked_page it.
Proof.
  intros [i t]. unfold entry_of, marked_page, page_marker, PDFExtractor.page_entry.
  cbn [fst snd]. now rewrite !app_assoc_s.
Qed.

Lemma numbered_from (texts : list string) (k : nat) :
  Forall (fun it => k <= fst it) (numbered k texts).
Proof.
  revert k. induction texts as [|t texts IH]; intros k; cbn [numbered]; constructor.
  - cbn. lia.
  - eapply List.Forall_impl; [|apply IH]. cbn. intros. lia.
Qed.

Lemma filtered_indices_ascend (f : nat * string -> bool) (texts : list string) (k : nat) :
  StronglySorted lt (map fst (List.filter f (numbered k texts))).
Proof.
  revert k. induction texts as [|t texts IH]; intros k; cbn [numbered List.filter].
  - constructor.
  - destruct (f (k, t)); [|apply IH].
    cbn [map fst]. constructor; [apply IH|].
    apply List.Forall_forall. intros i Hi.
    apply List.in_map_iff in Hi as ([j u] & <- & Hin).
    apply List.filter_In in Hin as [Hin _].
    pose proof (numbered_from texts (S k)) as Hall.
    rewrite List.Forall_forall in Hall. specialize (Hall _ Hin). cbn in *. lia.
Qed.

Lemma numbered_texts (texts : list string) (k : nat) :
  map snd (numbered k texts) = texts.
Proof.
  revert k. induction texts as [|t texts IH]; intros k; [reflexivity|].
  cbn. now rewrite IH.
Qed.

(** C4.  On a well-formed PDF (the library opens it and returns the text of
    every page), [extract_text] visits the pages in order, skips those whose
    text is empty or white space only, writes each remaining page as the
    marker [--- Page N ---] (N the 1-based page index), a line break and the
    page text, and returns these entries separated by blank lines; when no
    page remains it raises.  When every page has text, there is one entry
    per page, numbered 1 to [page_count] in ascending order, and the page
    texts appear in page order. *)
Theorem C4_page_markers (env : Env) (p : string) (w : world)
    (data : list Byte.byte) (texts : list string) :
  files w !! p = Some data ->
  pdf_parse env data = inr (map inr texts) ->
  (forall i t, marked_page (i, t)
               = "--- Page " ++ PyStr.of_nat (i + 1) ++ " ---" ++ nl ++ t)
  /\ (forall i t, In (i, t) (pages_with_text texts)
                  <-> texts !! i = Some t /\ whitespace_only t = false)
  /\ StronglySorted lt (map fst (pages_with_text texts))
  /\ (pages_with_text texts <> [] ->
      fst (PDFExtractor.extract_text env p w)
        = Return (blank_line_separated (map marked_page (pages_with_text texts))))
  /\ (pages_with_text texts = [] ->
      fst (PDFExtractor.extract_text env p w)
        = Raise (PyExc Exception
                   "Error extracting text from PDF: No text content found in PDF"))
  /\ (Forall (fun t => whitespace_only t = false) texts ->
      pages_with_text texts = numbered 0 texts
      /\ length (pages_with_text texts) = length texts
      /\ map fst (pages_with_text texts) = seq 0 (length texts)
      /\ map snd (pages_with_text texts) = texts
      /\ fst (PDFExtractor.get_page_count env p w) = Return (length texts)).
Proof.
  intros Hf Hp.
  assert (Hl : PDFExtractor.for_pages (map inr texts) 0 []
               = Return (map marked_page (pages_with_text texts))).
  { rewrite for_pages_texts. cbn [List.app]. fold (kept_pages texts).
    rewrite kept_pages_with_text. f_equal. apply map_ext, entry_of_marked. }
  split; [|split; [|split; [|split; [|split]]]].
  - intros i t. unfold marked_page, page_marker. cbn [fst snd].
    now rewrite !app_assoc_s.
  - intros i t. unfold pages_with_text. rewrite List.filter_In, numbered_In.
    cbn [snd]. rewrite Nat.sub_0_r, negb_true_iff. intuition lia.
  - apply filtered_indices_ascend.
  - intros Hne.
    rewrite (extract_text_ok env p w data _ _ Hf Hp Hl).
    + cbn [fst]. now rewrite join_blank_line.
    + intros E. apply Hne. now destruct (pages_with_text texts).
  - intros Hnone. rewrite Hnone in Hl.
    unfold PDFExtractor.extract_text, try_except, bind.
    rewrite fitz_open_run, (open_result_file env p w data Hf), Hp.
    unfold of_result. rewrite Hl. reflexivity.
  - intros Hall.
    assert (Hk : pages_with_text texts = numbered 0 texts).
    { rewrite <- kept_pages_with_text. apply numbered_all_kept.
      eapply List.Forall_impl; [|exact Hall]. intros t Ht. cbn in Ht.
      unfold has_text. now rewrite has_text_spec, Ht. }
    rewrite Hk. split; [reflexivity|].
    split; [now rewrite <- (length_map fst), numbered_indices, length_seq|].
    split; [apply numbered_indices|].
    split; [apply numbered_texts|].
    rewrite (get_page_count_ok env p w data _ Hf Hp). cbn [fst].
    now rewrite length_map.
Qed.

Lemma C4_witness :
  fst (PDFExtractor.extract_text
         (with_pdf sample_env (inr [inr "Intro"; inr nbsp; inr "  "; inr "End"]))
         "/tmp/tmpab12cd.pdf" (staged empty_world "/tmp/tmpab12cd.pdf" pdf_magic))
    = Return ("--- Page 1 ---" ++ nl ++ "Intro" ++ nl ++ nl
              ++ "--- Page 4 ---" ++ nl ++ "End").
Proof.
  destruct (C4_page_markers
              (with_pdf sample_env (inr [inr "Intro"; inr nbsp; inr "  "; inr "End"]))
              "/tmp/tmpab12cd.pdf"
              (staged empty_world "/tmp/tmpab12cd.pdf" pdf_magic)
              pdf_magic ["Intro"; nbsp; "  "; "End"]) as (_ & _ & _ & H & _).
  - vm_compute. reflexivity.
  - reflexivity.
  - rewrite H; [vm_compute; reflexivity|vm_compute; discriminate].
Defined.

(** ** The extension check *)

Lemma lower_app (a b : string) : PyStr.lower (a ++ b) = PyStr.lower a ++ PyStr.lower b.
Proof.
  induction a as [|c a IH]; [reflexivity|].
  rewrite app_cons. cbn [PyStr.lower]. now rewrite IH, app_cons.
Qed.

Lemma lower_split (s pre suffix : string) :
  PyStr.lower s = pre ++ suffix ->
  exists s1 s2, s = s1 ++ s2 /\ PyStr.lower s1 = pre /\ PyStr.lower s2 = suffix.
Proof.
  revert s. induction pre as [|c pre IH]; intros s H.
  - exists "", s. auto.
  - destruct s as [|x s]; [discriminate|].
    rewrite app_cons in H. cbn [PyStr.lower] in H. injection H as Hc H.
    destruct (IH s H) as (s1 & s2 & -> & H1 & H2).
    exists (String x s1), s2. rewrite app_cons. cbn [PyStr.lower].
    now rewrite Hc, H1.
Qed.

Ltac by_ascii_cases c :=
  destruct c as [[] [] [] [] [] [] [] []]; vm_compute;
  (split; [intros H; first [discriminate H | now left | now right | reflexivity]
          | intros H; first [discriminate H | reflexivity
                            | destruct H as [H|H]; first [discriminate H | reflexivity]]]).

Lemma lower_char_dot (c : ascii) : PyStr.lower_char c = "."%char <-> c = "."%char.
Proof. by_ascii_cases c. Qed.

Lemma lower_char_p (c : ascii) :
  PyStr.lower_char c = "p"%char <-> c = "p"%char \/ c = "P"%char.
Proof. by_ascii_cases c. Qed.

Lemma lower_char_d (c : ascii) :
  PyStr.lower_char c = "d"%char <-> c = "d"%char \/ c = "D"%char.
Proof. by_ascii_cases c. Qed.

Lemma lower_char_f (c : ascii) :
  PyStr.lower_char c = "f"%char <-> c = "f"%char \/ c = "F"%char.
Proof. by_ascii_cases c. Qed.

Lemma pdf_extension_spec (name : string) :
  PyStr.endswith (PyStr.lower name) ".pdf" = true
  <-> exists stem p d f,
        name = stem ++ String "." (String p (String d (String f "")))
        /\ (p = "p"%char \/ p = "P"%char)
        /\ (d = "d"%char \/ d = "D"%char)
        /\ (f = "f"%char \/ f = "F"%char).
Proof.
  split.
  - intros H. apply endswith_inv in H. destruct H as [pre H].
    apply lower_split in H. destruct H as (stem & ext & -> & _ & Hext).
    destruct ext as [|c0 [|c1 [|c2 [|c3 [|c4 ext]]]]]; try discriminate.
    cbn [PyStr.lower] in Hext.
    assert (H0 : PyStr.lower_char c0 = "."%char) by congruence.
    assert (H1 : PyStr.lower_char c1 = "p"%char) by congruence.
    assert (H2 : PyStr.lower_char c2 = "d"%char) by congruence.
    assert (H3 : PyStr.lower_char c3 = "f"%char) by congruence.
    apply (proj1 (lower_char_dot c0)) in H0. subst c0.
    exists stem, c1, c2, c3. split; [reflexivity|].
    split; [exact (proj1 (lower_char_p c1) H1)|].
    split; [exact (proj1 (lower_char_d c2) H2)|exact (proj1 (lower_char_f c3) H3)].
  - intros (stem & p & d & f & -> & Hp & Hd & Hf).
    rewrite lower_app. cbn [PyStr.lower].
    apply (proj2 (lower_char_p p)) in Hp. apply (proj2 (lower_char_d d)) in Hd.
    apply (proj2 (lower_char_f f)) in Hf.
    rewrite Hp, Hd, Hf. apply endswith_app.
Qed.

(** C10.  The extension check ignores case: the file name passes it exactly
    when it ends with a dot followed by P, D, F in either case, that is when
    its lowercased form ends with [.pdf]; a name that passes is never
    answered with the PDF-only rejection, and a name that does not pass is
    always answered with it, status 400, the world untouched. *)
Theorem C10_extension_check_ignores_case (env : Env) (file : UploadFile) (w : world) :
  (PyStr.endswith (PyStr.lower (filename file)) ".pdf" = true
   <-> exists stem p d f,
         filename file = stem ++ String "." (String p (String d (String f "")))
         /\ (p = "p"%char \/ p = "P"%char)
         /\ (d = "d"%char \/ d = "D"%char)
         /\ (f = "f"%char \/ f = "F"%char))
  /\ (PyStr.endswith (PyStr.lower (filename file)) ".pdf" = true ->
      fst (upload_pdf env file w) <> Raise (HTTPException 400 only_pdf_detail))
  /\ (PyStr.endswith (PyStr.lower (filename file)) ".pdf" = false ->
      upload_pdf env file w = (Raise (HTTPException 400 only_pdf_detail), w)).
Proof.
  split; [apply pdf_extension_spec|]. split.
  - intros Hext.
    destruct (upload_pdf_cases env file w)
      as [(d & _ & H & _ & Hd)|[(e & _ & _ & H)|[(n & e & _ & _ & _ & H)
         |(n & r & w2 & _ & _ & _ & _ & _ & Hout & H)]]];
      rewrite H; cbn [fst]; try discriminate.
    + assert (Hne : ~ bad_extension file) by (unfold bad_extension; congruence).
      destruct (Hd Hne) as [-> | ->]; intros E; injection E as E;
        cbv [size_detail empty_detail only_pdf_detail String.append] in E;
        discriminate E.
    + destruct Hout as [(?&?&?&?&?&?&?&?&?&?&?&->)|[(m & ->)|(d & ->)]];
        first [ discriminate
              | intros E; injection E as E;
                cbv [only_pdf_detail String.append] in E; discriminate E ].
  - intros Hext.
    destruct (upload_pdf_rejected env file w (or_introl Hext)) as (d & H & Hd & _).
    now rewrite H, (Hd Hext).
Qed.

Lemma C10_witness :
  fst (upload_pdf sample_env {| filename := "doc.Pdf"; file_bytes := pdf_magic |}
         empty_world)
    <> Raise (HTTPException 400 only_pdf_detail)
  /\ upload_pdf sample_env {| filename := "doc.pdf.txt"; file_bytes := pdf_magic |}
       empty_world
     = (Raise (HTTPException 400 only_pdf_detail), empty_world).
Proof.
  split.
  - destruct (C10_extension_check_ignores_case sample_env
                {| filename := "doc.Pdf"; file_bytes := pdf_magic |} empty_world)
      as (_ & H & _).
    apply H. reflexivity.
  - destruct (C10_extension_check_ignores_case sample_env
                {| filename := "doc.pdf.txt"; file_bytes := pdf_magic |} empty_world)
      as (_ & _ & H).
    apply H. reflexivity.
Defined.

(** ** The validation gate *)

(** C3.  An upload that violates the validation gate (file name without a
    [.pdf] extension, more bytes than the configured maximum, or no bytes)
    is answered with status 400 and the detail of a violation it has: the
    PDF-only detail for a bad extension, otherwise the size detail, which
    names MAX_FILE_SIZE_MB, for an oversize upload, otherwise the
    empty-file detail.  The world is returned unchanged: no temp file was
    created and no collaborator (PDF library, model runtime) was called. *)
Theorem C3_gate_rejects_before_any_work (env : Env) (file : UploadFile) (w : world) :
  bad_extension file \/ oversize env file \/ empty_upload file ->
  exists detail,
    upload_pdf env file w = (Raise (HTTPException 400 detail), w)
    /\ (detail = only_pdf_detail /\ bad_extension file
        \/ detail = size_detail env /\ oversize env file
        \/ detail = empty_detail /\ empty_upload file)
    /\ (bad_extension file -> detail = only_pdf_detail)
    /\ (~ bad_extension file -> oversize env file -> detail = size_detail env)
    /\ (~ bad_extension file -> ~ oversize env file -> detail = empty_detail)
    /\ size_detail env
       = "File size exceeds maximum allowed size of "
         ++ PyStr.of_Z (MAX_FILE_SIZE_MB env) ++ "MB".
Proof.
  intros Hbad.
  destruct (upload_pdf_rejected env file w Hbad) as (d & Hrun & H1 & H2 & H3).
  exists d. split; [exact Hrun|]. split; [|auto].
  unfold bad_extension in *.
  destruct (PyStr.endswith (PyStr.lower (filename file)) ".pdf") eqn:Hext.
  - assert (Hne : true <> false) by discriminate.
    destruct (Z_gt_dec (Z.of_nat (length (file_bytes file)))
                (MAX_FILE_SIZE_BYTES env)) as [Hgt|Hle].
    + right; left. split; [apply (H2 Hne Hgt)|exact Hgt].
    + right; right. split; [apply (H3 Hne Hle)|].
      destruct Hbad as [?|[?|?]]; [discriminate|contradiction|assumption].
  - left. split; [apply H1|]; reflexivity.
Qed.

Lemma C3_witness :
  upload_pdf sample_env {| filename := "notes.txt"; file_bytes := [] |} empty_world
    = (Raise (HTTPException 400 "Only PDF files are allowed"), empty_world)
  /\ upload_pdf sample_env {| filename := "notes.pdf"; file_bytes := [] |} empty_world
     = (Raise (HTTPException 400 "Uploaded file is empty"), empty_world)
  /\ upload_pdf (with_limit sample_env 0) sample_file empty_world
     = (Raise (HTTPException 400 "File size exceeds maximum allowed size of 0MB"),
        empty_world).
Proof.
  split; [|split].
  - destruct (C3_gate_rejects_before_any_work sample_env
                {| filename := "notes.txt"; file_bytes := [] |} empty_world)
      as (detail & Hrun & _ & Hext & _).
    + left. reflexivity.
    + rewrite Hrun, Hext; reflexivity.
  - destruct (C3_gate_rejects_before_any_work sample_env
                {| filename := "notes.pdf"; file_bytes := [] |} empty_world)
      as (detail & Hrun & _ & _ & _ & Hempty & _).
    + right; right. reflexivity.
    + rewrite Hrun, Hempty; [reflexivity|discriminate|vm_compute; discriminate].
  - destruct (C3_gate_rejects_before_any_work (with_limit sample_env 0)
                sample_file empty_world)
      as (detail & Hrun & _ & _ & Hsize & _).
    + right; left. reflexivity.
    + rewrite Hrun, Hsize; [reflexivity|discriminate|reflexivity].
Defined.

(** * Further properties of the code *)

(** ** Calls made by the summarization client and the pipeline *)

Lemma get_pdf_summary_trace (env : Env) (t : string) (w : world) :
  exists r,
    get_pdf_summary env t w
      = (r, World (files w)
              (calls w ++ CallCreateSession app_name user_id (session_id env)
                 :: match create_session_error env with
                    | Some _ => []
                    | None => [CallRunAsync user_id (session_id env)]
                    end))
    /\ (forall s, r = Return s -> create_session_error env = None).
Proof.
  run.
  destruct (create_session_error env) as [[c m]|] eqn:Ecs.
  - destruct c; cbn; eexists; (split; [reflexivity|discriminate]).
  - destruct (run_async env user_id (session_id env) (prompt_text t))
      as [events failure] eqn:Erun.
    step. rewrite <- List.app_assoc. cbn [List.app].
    destruct (for_events events "") as [rt|e] eqn:Eloop.
    + destruct failure as [[c m]|].
      * destruct c; cbn; eauto.
      * destruct (PyStr.strip rt) as [|a s] eqn:Estrip; cbn; eauto.
    + destruct e as [[] m|s d]; cbn; eauto.
Qed.

Lemma extract_and_summarize_trace (env : Env) (file : UploadFile) (path : string)
    (st : frame) :
  exists r w2 depth,
    extract_and_summarize env file path st
      = (r, Frame w2 (temp_file st) (temp_file_path st))
    /\ files w2 = files (fw st)
    /\ calls w2 = (calls (fw st) ++ pipeline_calls env path depth)%list
    /\ 1 <= depth <= 4
    /\ (forall resp, r = Return resp -> depth = 4)
    /\ (forall d, r = Raise (HTTPException 400 d) -> depth = 1).
Proof.
  unfold extract_and_summarize, try_except, bind, in_world.
  destruct (extract_text_run env path (fw st)) as (r1 & E1 & H1). rewrite E1. step.
  destruct H1 as [(doc & tc & Ho & Hl & Hne & ->)|[(m & ->)|(m & ->)]].
  2,3: cbn; do 2 eexists; exists 1; cbn;
       (split; [reflexivity|]); (split; [reflexivity|]); (split; [reflexivity|]);
       (split; [lia|]); split; intros; (discriminate || reflexivity).
  destruct (get_page_count_run env path
              (World (files (fw st)) (calls (fw st) ++ [CallFitzOpen path])))
    as (r2 & E2 & H2).
  rewrite E2. step.
  destruct H2 as [(doc' & Ho' & ->)|(m & ->)].
  2: cbn; do 2 eexists; exists 2; cbn; rewrite <- List.app_assoc;
     (split; [reflexivity|]); (split; [reflexivity|]); (split; [reflexivity|]);
     (split; [lia|]); split; intros; discriminate.
  unfold ret. step.
  match goal with |- context [get_pdf_summary env ?t ?w] =>
    destruct (get_pdf_summary_trace env t w) as (r3 & E3 & H3) end.
  rewrite E3. step. rewrite <- !List.app_assoc. cbn [List.app].
  destruct r3 as [s|e].
  - rewrite (H3 s eq_refl). do 2 eexists; exists 4; cbn.
    (split; [reflexivity|]); (split; [reflexivity|]); (split; [reflexivity|]).
    split; [lia|]. split; intros; (discriminate || reflexivity).
  - destruct (create_session_error env);
      destruct e as [[] m|s d]; cbn;
      do 2 eexists; (exists 3 + exists 4); cbn;
      (split; [reflexivity|]); (split; [reflexivity|]); (split; [reflexivity|]);
      (split; [lia|]); split; intros; discriminate.
Qed.

Lemma upload_pdf_staged_trace (env : Env) (file : UploadFile) (w : world)
    (name : string) :
  passes_gate env file ->
  tempfile_outcome env = inr name ->
  write_error env = None ->
  exists r depth,
    upload_pdf env file w
      = (r, World (match unlink_error env with
                   | Some _ => <[name := file_bytes file]> (<[name := []]> (files w))
                   | None => delete name
                               (<[name := file_bytes file]> (<[name := []]> (files w)))
                   end)
              (calls w ++ [CallNamedTemporaryFile; CallWrite name]
               ++ pipeline_calls env name depth ++ [CallUnlink name]))
    /\ pipeline_outcome env file r
    /\ 1 <= depth <= 4
    /\ (forall resp, r = Return resp -> depth = 4)
    /\ (forall d, r = Raise (HTTPException 400 d) -> depth = 1).
Proof.
  intros Hgate Htmp Hwr.
  destruct (upload_pdf_staged env file w name Hgate Htmp Hwr)
    as (r & w2 & Hrun & Hfiles & Hout & Hup).
  destruct (extract_and_summarize_trace env file name
              (Frame (staged w name (file_bytes file)) (Some name) (Some name)))
    as (r' & w2' & depth & Hrun' & _ & Hcalls & Hd & Hret & H400).
  cbn [fw temp_file temp_file_path] in Hrun', Hcalls.
  rewrite Hrun in Hrun'. injection Hrun' as <- <-.
  exists r, depth. split; [|auto].
  rewrite Hup. unfold cleaned. rewrite Hfiles, Hcalls. cbn [staged files calls].
  rewrite <- !List.app_assoc. reflexivity.
Qed.

(** ** Outcomes of the handler *)

(** The handler answers with the response model, status 400 or status 500;
    the one other way out is the [UnboundLocalError] of the [finally] block,
    and only when writing the temp file failed. *)
Theorem upload_pdf_outcomes (env : Env) (file : UploadFile) (w : world) :
  match fst (upload_pdf env file w) with
  | Return _ => True
  | Raise (HTTPException status _) => status = 400%Z \/ status = 500%Z
  | Raise (PyExc c m) =>
      PyExc c m = unbound_temp_file_path
      /\ passes_gate env file
      /\ exists name e, tempfile_outcome env = inr name /\ write_error env = Some e
  end.
Proof.
  destruct (upload_pdf_cases env file w)
    as [(d & _ & H & _)|[(e & _ & _ & H)|[(n & e & Hg & Hn & He & H)
       |(n & r & w2 & _ & _ & _ & _ & _ & Hout & H)]]];
    rewrite H; cbn [fst]; auto.
  - split; [reflexivity|]. split; [exact Hg|]. exists n, e. auto.
  - destruct Hout as [(?&?&?&?&?&?&?&?&?&?&?&->)|[(m & ->)|(d & ->)]]; auto.
Qed.

(** When [NamedTemporaryFile] itself fails, the handler answers 500 with the
    error text, the [finally] block does nothing ([temp_file] is still
    [None]), and the filesystem is as before. *)
Theorem tempfile_failure_answered_500 (env : Env) (file : UploadFile) (w : world)
    (e : lib_error) :
  passes_gate env file ->
  tempfile_outcome env = inl e ->
  upload_pdf env file w
    = (Raise (HTTPException 500 ("Unexpected error: " ++ snd e)),
       World (files w) (calls w ++ [CallNamedTemporaryFile])).
Proof.
  intros Hgate Htmp.
  rewrite (upload_pdf_past_gate env file w Hgate),
    (process_upload_tempfile_fails _ _ _ _ _ Htmp).
  reflexivity.
Qed.

Lemma tempfile_failure_witness :
  upload_pdf (with_tempfile_error sample_env no_space) sample_file empty_world
    = (Raise (HTTPException 500 "Unexpected error: [Errno 28] No space left on device"),
       World ∅ [CallNamedTemporaryFile]).
Proof.
  apply (tempfile_failure_answered_500
           (with_tempfile_error sample_env no_space) sample_file empty_world no_space).
  - split; [reflexivity|]. vm_compute. split; [reflexivity|discriminate].
  - reflexivity.
Defined.

(** When writing the temp file fails, [temp_file] is set but
    [temp_file_path] is not: the [finally] block raises
    [UnboundLocalError] in place of the answer, [os.unlink] is never
    called and the temp file, created empty, stays. *)
Theorem write_failure_leaves_temp_file (env : Env) (file : UploadFile) (w : world)
    (name : string) (e : lib_error) :
  passes_gate env file ->
  tempfile_outcome env = inr name ->
  write_error env = Some e ->
  upload_pdf env file w
    = (Raise unbound_temp_file_path,
       World (<[name := []]> (files w))
         (calls w ++ [CallNamedTemporaryFile; CallWrite name]))
  /\ files (snd (upload_pdf env file w)) !! name = Some [].
Proof.
  intros Hgate Htmp Hwr.
  rewrite (upload_pdf_past_gate env file w Hgate),
    (process_upload_write_fails _ _ _ _ _ _ Htmp Hwr).
  cbn [fw snd files]. rewrite <- List.app_assoc. split; [reflexivity|].
  apply lookup_insert_eq.
Qed.

Lemma write_failure_witness :
  fst (upload_pdf (with_write_error sample_env (Some no_space)) sample_file empty_world)
    = Raise unbound_temp_file_path
  /\ files (snd (upload_pdf (with_write_error sample_env (Some no_space))
                   sample_file empty_world)) !! "/tmp/tmpab12cd.pdf"
     = Some [].
Proof.
  destruct (write_failure_leaves_temp_file
              (with_write_error sample_env (Some no_space)) sample_file empty_world
              "/tmp/tmpab12cd.pdf" no_space) as [Hup Hfile].
  - split; [reflexivity|]. vm_compute. split; [reflexivity|discriminate].
  - reflexivity.
  - reflexivity.
  - split; [now rewrite Hup|exact Hfile].
Defined.

(** ** The handler and the filesystem *)

(** The handler touches no file but its own temp file. *)
Theorem upload_pdf_other_files_untouched (env : Env) (file : UploadFile) (w : world)
    (path : string) :
  tempfile_outcome env <> inr path ->
  files (snd (upload_pdf env file w)) !! path = files w !! path.
Proof.
  intros Hother.
  destruct (upload_pdf_cases env file w)
    as [(d & _ & H & _)|[(e & _ & _ & H)|[(n & e & _ & Hn & _ & H)
       |(n & r & w2 & _ & Hn & _ & _ & Hfiles & _ & H)]]];
    rewrite H; cbn [snd files]; try reflexivity.
  - apply lookup_insert_ne. congruence.
  - assert (n <> path) by congruence.
    unfold cleaned. cbn [files]. rewrite Hfiles. cbn [staged files].
    destruct (unlink_error env); rewrite ?lookup_delete_ne by assumption;
      now rewrite !lookup_insert_ne by assumption.
Qed.

Lemma upload_pdf_other_files_witness :
  files (snd (upload_pdf sample_env sample_file
                other_world)) !! "/etc/hosts"
    = Some pdf_magic.
Proof.
  rewrite (upload_pdf_other_files_untouched sample_env sample_file
             other_world "/etc/hosts").
  - reflexivity.
  - discriminate.
Defined.

(** With a fresh temp-file name, a write that succeeds and an unlink that
    succeeds, the filesystem after the request is the filesystem before it,
    whatever the outcome of the request. *)
Theorem upload_pdf_restores_filesystem (env : Env) (file : UploadFile) (w : world)
    (name : string) :
  tempfile_outcome env = inr name ->
  files w !! name = None ->
  write_error env = None ->
  unlink_error env = None ->
  files (snd (upload_pdf env file w)) = files w.
Proof.
  intros Htmp Hfresh Hwr Hun.
  destruct (upload_pdf_cases env file w)
    as [(d & _ & H & _)|[(e & _ & He & _)|[(n & e & _ & _ & He & _)
       |(n & r & w2 & _ & Hn & _ & _ & Hfiles & _ & H)]]];
    try congruence.
  - now rewrite H.
  - assert (n = name) as -> by congruence.
    rewrite H. unfold cleaned. rewrite Hun. cbn [snd files].
    rewrite Hfiles. cbn [staged files].
    rewrite insert_insert_eq. now apply delete_insert_id.
Qed.

Lemma upload_pdf_restores_witness :
  files (snd (upload_pdf sample_env sample_file other_world)) = files other_world.
Proof.
  apply (upload_pdf_restores_filesystem sample_env sample_file
           other_world "/tmp/tmpab12cd.pdf");
    reflexivity.
Defined.

(** ** The gate and the calls that follow it *)

Lemma app_cons_not_nil {A} (l : list A) (x : A) (cs : list A) :
  (l ++ x :: cs)%list <> l.
Proof.
  intros H. apply (f_equal (@length A)) in H.
  rewrite List.length_app in H. cbn in H. lia.
Qed.

Lemma not_passes_gate (env : Env) (file : UploadFile) :
  ~ passes_gate env file <->
  bad_extension file \/ oversize env file \/ empty_upload file.
Proof.
  split.
  - intros Hn. destruct (gate_cases env file) as [H|H]; [contradiction|exact H].
  - unfold passes_gate, bad_extension, oversize, empty_upload.
    intros [H|[H|H]] [Hext Hsize]; [congruence|lia|lia].
Qed.

Lemma passes_gate_stages (env : Env) (file : UploadFile) (w : world) :
  passes_gate env file ->
  exists cs, calls (snd (upload_pdf env file w))
             = (calls w ++ CallNamedTemporaryFile :: cs)%list.
Proof.
  intros Hg.
  destruct (upload_pdf_cases env file w)
    as [(d & Hng & _)|[(e & _ & _ & H)|[(n & e & _ & _ & _ & H)
       |(n & r & w2 & _ & Hn & Hwr & _ & _ & _ & _)]]].
  - contradiction.
  - rewrite H. cbn [snd calls]. now exists [].
  - rewrite H. cbn [snd calls]. rewrite <- List.app_assoc. now exists [CallWrite n].
  - destruct (upload_pdf_staged_trace env file w n Hg Hn Hwr)
      as (r' & depth & H & _).
    rewrite H. cbn [snd calls List.app]. eexists. reflexivity.
Qed.

(** The temp file is created exactly for the uploads that pass the gate:
    for them [NamedTemporaryFile] is the first call the handler makes; for
    all others the handler makes no call at all. *)
Theorem staging_iff_gate (env : Env) (file : UploadFile) (w : world) :
  (passes_gate env file <->
   exists cs, calls (snd (upload_pdf env file w))
              = (calls w ++ CallNamedTemporaryFile :: cs)%list)
  /\ (~ passes_gate env file <-> calls (snd (upload_pdf env file w)) = calls w).
Proof.
  destruct (upload_pdf_cases env file w)
    as [(d & Hng & H & _)|[(e & Hg & _ & H)|[(n & e & Hg & _ & _ & H)
       |(n & r & w2 & Hg & Hn & Hwr & _ & _ & _ & _)]]].
  - rewrite H. cbn [snd]. split; split; try tauto.
    intros [cs Hcs]. symmetry in Hcs. now apply app_cons_not_nil in Hcs.
  - rewrite H. cbn [snd calls]. split; split; try tauto.
    + intros _. now exists [].
    + intros Hc. now apply (app_cons_not_nil (calls w)) in Hc.
  - rewrite H. cbn [snd calls]. rewrite <- List.app_assoc. split; split; try tauto.
    + intros _. now exists [CallWrite n].
    + intros Hc. now apply (app_cons_not_nil (calls w)) in Hc.
  - destruct (passes_gate_stages env file w Hg) as [cs Hcs].
    split; split; try tauto.
    + intros _. now exists cs.
    + intros Hc. rewrite Hcs in Hc. now apply app_cons_not_nil in Hc.
Qed.

(** With a size limit of zero or less no upload passes the gate: every
    request is answered 400 and nothing else happens. *)
Theorem nonpositive_limit_rejects_all (env : Env) (file : UploadFile) (w : world) :
  (MAX_FILE_SIZE_MB env <= 0)%Z ->
  exists detail, upload_pdf env file w = (Raise (HTTPException 400 detail), w).
Proof.
  intros Hmax.
  assert (Hbad : bad_extension file \/ oversize env file \/ empty_upload file).
  { apply not_passes_gate. unfold passes_gate, MAX_FILE_SIZE_BYTES.
    intros [_ Hsize]. lia. }
  destruct (upload_pdf_rejected env file w Hbad) as (d & H & _). now exists d.
Qed.

Lemma nonpositive_limit_witness :
  exists detail,
    upload_pdf (with_limit sample_env 0) sample_file empty_world
      = (Raise (HTTPException 400 detail), empty_world).
Proof.
  apply (nonpositive_limit_rejects_all (with_limit sample_env 0) sample_file empty_world).
  vm_compute. discriminate.
Defined.

(** An upload of exactly the maximum size passes the size check; one byte
    more does not. *)
Theorem size_limit_is_inclusive (env : Env) (file : UploadFile) :
  PyStr.endswith (PyStr.lower (filename file)) ".pdf" = true ->
  (0 < MAX_FILE_SIZE_MB env)%Z ->
  (Z.of_nat (length (file_bytes file)) = MAX_FILE_SIZE_BYTES env ->
   forall w, exists cs, calls (snd (upload_pdf env file w))
                        = (calls w ++ CallNamedTemporaryFile :: cs)%list)
  /\ (Z.of_nat (length (file_bytes file)) = MAX_FILE_SIZE_BYTES env + 1 ->
      forall w, upload_pdf env file w
                = (Raise (HTTPException 400 (size_detail env)), w))%Z.
Proof.
  intros Hext Hpos. split; intros Hsize w.
  - apply passes_gate_stages. split; [exact Hext|]. unfold MAX_FILE_SIZE_BYTES in *. lia.
  - assert (Hover : oversize env file) by (unfold oversize; lia).
    destruct (upload_pdf_rejected env file w (or_intror (or_introl Hover)))
      as (d & H & _ & Hd & _).
    rewrite H, Hd; [reflexivity| |exact Hover].
    unfold bad_extension. congruence.
Qed.

Lemma size_limit_witness :
  (exists cs, calls (snd (upload_pdf (with_limit sample_env 1) megabyte_file empty_world))
              = CallNamedTemporaryFile :: cs)
  /\ upload_pdf (with_limit sample_env 1) megabyte_plus_one_file empty_world
     = (Raise (HTTPException 400 "File size exceeds maximum allowed size of 1MB"),
        empty_world).
Proof.
  split.
  - destruct (size_limit_is_inclusive (with_limit sample_env 1) megabyte_file)
      as [H _]; [reflexivity|reflexivity|].
    apply (H ltac:(cbn [megabyte_file file_bytes]; rewrite List.repeat_length,
                     Nat2Z.inj_pow; reflexivity) empty_world).
  - destruct (size_limit_is_inclusive (with_limit sample_env 1) megabyte_plus_one_file)
      as [_ H]; [reflexivity|reflexivity|].
    apply (H ltac:(cbn [megabyte_plus_one_file file_bytes length];
                   rewrite List.repeat_length, Nat2Z.inj_succ, Nat2Z.inj_pow;
                   reflexivity) empty_world).
Defined.

(** ** What the handler calls, by outcome *)

Lemma pipeline_calls_one (env : Env) (path : string) :
  pipeline_calls env path 1 = [CallFitzOpen path].
Proof. reflexivity. Qed.

(** A request answered 400 never reached the model runtime: among the
    calls it made there is no session creation and no agent run. *)
Theorem rejected_request_makes_no_model_call (env : Env) (file : UploadFile)
    (w : world) (detail : string) :
  fst (upload_pdf env file w) = Raise (HTTPException 400 detail) ->
  exists cs,
    calls (snd (upload_pdf env file w)) = (calls w ++ cs)%list
    /\ Forall (fun c => is_runtime_call c = false) cs.
Proof.
  intros Hout.
  destruct (upload_pdf_cases env file w)
    as [(d & _ & H & _)|[(e & _ & _ & H)|[(n & e & _ & _ & _ & H)
       |(n & r & w2 & Hg & Hn & Hwr & _ & _ & _ & _)]]].
  - rewrite H. cbn [snd]. exists []. now rewrite List.app_nil_r.
  - rewrite H in Hout. discriminate.
  - rewrite H in Hout. discriminate.
  - destruct (upload_pdf_staged_trace env file w n Hg Hn Hwr)
      as (r' & depth & H & _ & _ & _ & H400).
    rewrite H in Hout |- *. cbn [fst snd calls] in *. subst r'.
    rewrite (H400 detail eq_refl). eexists. split; [reflexivity|].
    repeat constructor.
Qed.

Lemma rejected_request_witness :
  exists cs,
    calls (snd (upload_pdf (with_pdf sample_env (inl not_a_pdf))
                  sample_file empty_world)) = cs
    /\ Forall (fun c => is_runtime_call c = false) cs.
Proof.
  destruct (rejected_request_makes_no_model_call
              (with_pdf sample_env (inl not_a_pdf)) sample_file empty_world
              "Invalid or corrupted PDF file: Failed to open file")
    as (cs & Hcs & Hnone).
  - vm_compute. reflexivity.
  - exists cs. split; [exact Hcs|exact Hnone].
Defined.

(** A successful request makes exactly seven calls, in this order: create
    the temp file, write it, open the PDF for its text, open it again for
    its page count, create the session, run the agent, remove the temp
    file. *)
Theorem successful_request_calls (env : Env) (file : UploadFile) (w w' : world)
    (resp : SummaryResponse) :
  upload_pdf env file w = (Return resp, w') ->
  exists name,
    tempfile_outcome env = inr name
    /\ calls w'
       = (calls w ++ [ CallNamedTemporaryFile; CallWrite name;
                       CallFitzOpen name; CallFitzOpen name;
                       CallCreateSession "pdf_summarizer" "pdf_user" (session_id env);
                       CallRunAsync "pdf_user" (session_id env);
                       CallUnlink name ])%list.
Proof.
  intros Hup.
  destruct (upload_pdf_returns env file w w' resp Hup)
    as (name & doc & tc & events & rt & Hg & Htmp & Hwr & _).
  destruct (upload_pdf_staged_trace env file w name Hg Htmp Hwr)
    as (r' & depth & H & _ & _ & Hret & _).
  rewrite H in Hup. injection Hup as -> <-.
  rewrite (Hret resp eq_refl). exists name. split; [exact Htmp|reflexivity].
Qed.

Lemma successful_request_witness :
  calls (snd (upload_pdf sample_env sample_file empty_world))
    = [ CallNamedTemporaryFile; CallWrite "/tmp/tmpab12cd.pdf";
        CallFitzOpen "/tmp/tmpab12cd.pdf"; CallFitzOpen "/tmp/tmpab12cd.pdf";
        CallCreateSession "pdf_summarizer" "pdf_user" "pdf_session_deadbeef";
        CallRunAsync "pdf_user" "pdf_session_deadbeef";
        CallUnlink "/tmp/tmpab12cd.pdf" ].
Proof.
  assert (Hup : upload_pdf sample_env sample_file empty_world
                = (Return {| summary := "A short summary."; page_count := 3;
                             file_name := "Report.PDF" |},
                   snd (upload_pdf sample_env sample_file empty_world))).
  { vm_compute. reflexivity. }
  destruct (successful_request_calls _ _ _ _ _ Hup) as (name & Hname & Hcalls).
  injection Hname as <-. exact Hcalls.
Defined.

(** Past the gate, the only answer 400 is the one for a document the PDF
    library rejects as invalid. *)
Theorem staged_400_is_invalid_document (env : Env) (file : UploadFile) (w : world)
    (detail : string) :
  passes_gate env file ->
  fst (upload_pdf env file w) = Raise (HTTPException 400 detail) ->
  exists m, detail = "Invalid or corrupted PDF file: " ++ m.
Proof.
  intros Hg Hout.
  destruct (upload_pdf_cases env file w)
    as [(d & Hng & _)|[(e & _ & _ & H)|[(n & e & _ & _ & _ & H)
       |(n & r & w2 & _ & _ & _ & _ & _ & Hshape & H)]]];
    [contradiction|rewrite H in Hout; discriminate..|].
  rewrite H in Hout. cbn [fst] in Hout. subst r.
  destruct Hshape as [(?&?&?&?&?&?&?&?&?&?&?&Heq)|[(m & Heq)|(d & Heq)]];
    try discriminate.
  injection Heq as ->. now exists m.
Qed.

Lemma staged_400_witness :
  exists m,
    fst (upload_pdf (with_pdf sample_env (inl not_a_pdf)) sample_file empty_world)
      = Raise (HTTPException 400 ("Invalid or corrupted PDF file: " ++ m)).
Proof.
  destruct (staged_400_is_invalid_document
              (with_pdf sample_env (inl not_a_pdf)) sample_file empty_world
              "Invalid or corrupted PDF file: Failed to open file")
    as (m & Hm).
  - split; [reflexivity|]. vm_compute. split; [reflexivity|discriminate].
  - vm_compute. reflexivity.
  - exists m. rewrite <- Hm. vm_compute. reflexivity.
Defined.

Lemma open_failure_witness :
  fst (upload_pdf (with_pdf sample_env (inl not_a_pdf)) sample_file empty_world)
    = Raise (HTTPException 400 "Invalid or corrupted PDF file: Failed to open file")
  /\ fst (upload_pdf (with_pdf sample_env (inl password_needed)) sample_file empty_world)
     = Raise (HTTPException 500
         "Error processing PDF: Error extracting text from PDF: document closed or encrypted").
Proof.
  split.
  - apply (open_failure_status (with_pdf sample_env (inl not_a_pdf)) sample_file
             empty_world "/tmp/tmpab12cd.pdf" not_a_pdf); try reflexivity.
    split; [reflexivity|]. vm_compute. split; [reflexivity|discriminate].
  - apply (open_failure_status (with_pdf sample_env (inl password_needed)) sample_file
             empty_world "/tmp/tmpab12cd.pdf" password_needed); try reflexivity.
    split; [reflexivity|]. vm_compute. split; [reflexivity|discriminate].
Defined.

(** ** The text extractor *)

Lemma for_pages_entries (doc : document) (k : nat) (acc tc : list string) :
  PDFExtractor.for_pages doc k acc = Return tc ->
  exists more,
    tc = (acc ++ more)%list
    /\ length more <= length doc
    /\ Forall (fun entry => exists n t, entry = PDFExtractor.page_entry n t) more.
Proof.
  revert k acc. induction doc as [|page doc IH]; intros k acc H.
  - cbn in H. injection H as <-. exists []. rewrite List.app_nil_r.
    split; [reflexivity|]. split; [reflexivity|constructor].
  - cbn [PDFExtractor.for_pages] in H. destruct page as [e|text]; [discriminate|].
    destruct (PyStr.truthy (PyStr.strip text)).
    + destruct (IH _ _ H) as (more & -> & Hlen & Hall).
      exists (PDFExtractor.page_entry k text :: more).
      rewrite <- List.app_assoc. split; [reflexivity|].
      split; [cbn; lia|]. constructor; [now exists k, text|exact Hall].
    + destruct (IH _ _ H) as (more & -> & Hlen & Hall).
      exists more. split; [reflexivity|]. split; [cbn; lia|exact Hall].
Qed.

Lemma join_head (sep x : string) (rest : list string) :
  exists tail, PyStr.join sep (x :: rest) = x ++ tail.
Proof.
  unfold PyStr.join. destruct rest as [|y rest].
  - exists "". cbn. now rewrite app_empty_r.
  - eexists. cbn [String.concat]. reflexivity.
Qed.

(** Whenever [extract_text] returns, the text starts with a page marker (so
    it is never empty), and [get_page_count] on the same file returns a
    page count of at least one. *)
Theorem extract_text_result_shape (env : Env) (p : string) (w w1 : world)
    (pdf_text : string) :
  fst (PDFExtractor.extract_text env p w) = Return pdf_text ->
  files w1 !! p = files w !! p ->
  (exists rest, pdf_text = "--- Page " ++ rest)
  /\ exists n, fst (PDFExtractor.get_page_count env p w1) = Return n /\ 1 <= n.
Proof.
  intros H Hsame.
  destruct (extract_text_returns _ _ _ _ H)
    as (doc & tc & Ho & Hl & Hne & ->).
  destruct (for_pages_entries _ _ _ _ Hl) as (more & -> & Hlen & Hall).
  cbn [List.app] in Hne |- *.
  destruct more as [|entry more]; [congruence|].
  split.
  - destruct (join_head (nl ++ nl) entry more) as [tail ->].
    apply Forall_inv in Hall. destruct Hall as (n & t & ->).
    unfold PDFExtractor.page_entry. rewrite !app_assoc_s. eexists. reflexivity.
  - exists (length doc).
    rewrite <- (open_result_same env p w1 w Hsame) in Ho.
    rewrite (get_page_count_opened env p w1 doc Ho).
    split; [reflexivity|]. cbn in Hlen. lia.
Qed.

Lemma extract_text_shape_witness :
  (exists rest,
     PyStr.join (nl ++ nl)
       [PDFExtractor.page_entry 0 "Intro"; PDFExtractor.page_entry 2 "End"]
     = "--- Page " ++ rest)
  /\ exists n,
       fst (PDFExtractor.get_page_count sample_env "/tmp/tmpab12cd.pdf"
              (staged empty_world "/tmp/tmpab12cd.pdf" pdf_magic)) = Return n
       /\ 1 <= n.
Proof.
  apply (extract_text_result_shape sample_env "/tmp/tmpab12cd.pdf"
           (staged empty_world "/tmp/tmpab12cd.pdf" pdf_magic)
           (staged empty_world "/tmp/tmpab12cd.pdf" pdf_magic)).
  - vm_compute. reflexivity.
  - reflexivity.
Defined.

(** Both extractor functions only read: they leave every file as it is,
    and each opens the PDF exactly once, whatever the outcome. *)
Theorem extractor_is_read_only (env : Env) (p : string) (w : world) :
  snd (PDFExtractor.extract_text env p w)
    = World (files w) (calls w ++ [CallFitzOpen p])
  /\ snd (PDFExtractor.get_page_count env p w)
     = World (files w) (calls w ++ [CallFitzOpen p]).
Proof.
  destruct (extract_text_run env p w) as (r1 & E1 & _).
  destruct (get_page_count_run env p w) as (r2 & E2 & _).
  now rewrite E1, E2.
Qed.

(** The exceptions of the extractor: [extract_text] raises a [ValueError]
    with the invalid-document message or a plain [Exception] with the
    extraction message; [get_page_count] raises only a plain [Exception]
    with the reading message.  Neither lets an exception of the PDF library
    through with its own class. *)
Theorem extractor_exceptions (env : Env) (p : string) (w : world) (e : exc) :
  (fst (PDFExtractor.extract_text env p w) = Raise e ->
   (exists m, e = PyExc ValueError ("Invalid or corrupted PDF file: " ++ m))
   \/ (exists m, e = PyExc Exception ("Error extracting text from PDF: " ++ m)))
  /\ (fst (PDFExtractor.get_page_count env p w) = Raise e ->
      exists m, e = PyExc Exception ("Error reading PDF: " ++ m)).
Proof.
  split.
  - destruct (extract_text_run env p w) as (r & E & H). rewrite E. cbn [fst].
    intros ->.
    destruct H as [(?&?&?&?&?&Heq)|[(m & Heq)|(m & Heq)]];
      [discriminate| |]; injection Heq as ->; eauto.
  - destruct (get_page_count_run env p w) as (r & E & H). rewrite E. cbn [fst].
    intros ->.
    destruct H as [(?&?&Heq)|(m & Heq)]; [discriminate|].
    injection Heq as ->. eauto.
Qed.

(** When the PDF library fails to open the path, whether a file is there
    or not, [extract_text] raises a [ValueError] with the invalid-document
    message if the library's error is a [FileDataError] and a plain
    [Exception] with the extraction message otherwise; [get_page_count]
    raises a plain [Exception] with the reading message in both cases.
    Each message ends with the library's own. *)
Theorem extractor_open_failure (env : Env) (p : string) (w : world) (e : lib_error) :
  PDFExtractor.open_result env w p = inl e ->
  fst (PDFExtractor.extract_text env p w)
    = Raise (if issubclass (fst e) FileDataError
             then PyExc ValueError ("Invalid or corrupted PDF file: " ++ snd e)
             else PyExc Exception ("Error extracting text from PDF: " ++ snd e))
  /\ fst (PDFExtractor.get_page_count env p w)
     = Raise (PyExc Exception ("Error reading PDF: " ++ snd e)).
Proof.
  intros Ho.
  unfold PDFExtractor.extract_text, PDFExtractor.get_page_count, try_except, bind.
  rewrite fitz_open_run, Ho.
  destruct e as [[] m]; split; reflexivity.
Qed.

Lemma extractor_open_failure_witness :
  fst (PDFExtractor.extract_text (with_pdf sample_env (inl not_a_pdf))
         "/tmp/tmpab12cd.pdf" (staged empty_world "/tmp/tmpab12cd.pdf" pdf_magic))
    = Raise (PyExc ValueError "Invalid or corrupted PDF file: Failed to open file")
  /\ fst (PDFExtractor.get_page_count (with_pdf sample_env (inl not_a_pdf))
            "/tmp/tmpab12cd.pdf" (staged empty_world "/tmp/tmpab12cd.pdf" pdf_magic))
     = Raise (PyExc Exception "Error reading PDF: Failed to open file").
Proof.
  apply (extractor_open_failure (with_pdf sample_env (inl not_a_pdf))
           "/tmp/tmpab12cd.pdf" (staged empty_world "/tmp/tmpab12cd.pdf" pdf_magic)
           not_a_pdf).
  vm_compute. reflexivity.
Defined.

(** A page whose [get_text] raises stops the extraction, even after pages
    that gave text: nothing of the text collected so far is returned. *)
Theorem page_failure_discards_text (env : Env) (p : string) (w : world)
    (data : list Byte.byte) (before : list string) (e : lib_error)
    (after : document) :
  files w !! p = Some data ->
  pdf_parse env data = inr (map inr before ++ inl e :: after)%list ->
  fst (PDFExtractor.extract_text env p w)
    = Raise (if issubclass (fst e) FileDataError
             then PyExc ValueError ("Invalid or corrupted PDF file: " ++ snd e)
             else PyExc Exception ("Error extracting text from PDF: " ++ snd e)).
Proof.
  intros Hf Hp.
  assert (Hloop : forall k acc,
             PDFExtractor.for_pages (map inr before ++ inl e :: after)%list k acc
             = Raise (py e)).
  { clear Hp. induction before as [|t before IH]; intros k acc; [reflexivity|].
    cbn [map List.app PDFExtractor.for_pages].
    destruct (PyStr.truthy (PyStr.strip t)); apply IH. }
  unfold PDFExtractor.extract_text, try_except, bind.
  rewrite fitz_open_run, (open_result_file env p w data Hf), Hp.
  unfold of_result. rewrite Hloop.
  destruct e as [[] m]; reflexivity.
Qed.

Lemma page_failure_witness :
  fst (PDFExtractor.extract_text
         (with_pdf sample_env (inr [inr "Intro"; inl password_needed; inr "End"]))
         "/tmp/tmpab12cd.pdf" (staged empty_world "/tmp/tmpab12cd.pdf" pdf_magic))
    = Raise (PyExc Exception
               "Error extracting text from PDF: document closed or encrypted").
Proof.
  apply (page_failure_discards_text
           (with_pdf sample_env (inr [inr "Intro"; inl password_needed; inr "End"]))
           "/tmp/tmpab12cd.pdf" (staged empty_world "/tmp/tmpab12cd.pdf" pdf_magic)
           pdf_magic ["Intro"] password_needed [inr "End"]).
  - vm_compute. reflexivity.
  - reflexivity.
Defined.

(** ** The summarization client, further *)

(** The client creates the session before it runs the agent, runs the
    agent under the identifiers of the session it created, does not run it
    at all when the session could not be created, and leaves the
    filesystem alone. *)
Theorem summary_client_calls (env : Env) (pdf_text : string) (w : world) :
  snd (get_pdf_summary env pdf_text w)
    = World (files w)
        (calls w ++ CallCreateSession "pdf_summarizer" "pdf_user" (session_id env)
           :: match create_session_error env with
              | Some _ => []
              | None => [CallRunAsync "pdf_user" (session_id env)]
              end).
Proof.
  destruct (get_pdf_summary_trace env pdf_text w) as (r & E & _).
  now rewrite E.
Qed.

Lemma string_last (c : ascii) (s : string) :
  exists init d, String c s = init ++ String d "".
Proof.
  revert c. induction s as [|a s IH]; intros c.
  - now exists "", c.
  - destruct (IH a) as (init & d & ->). exists (String c init), d.
    now rewrite app_cons.
Qed.

(** A returned summary is trimmed: stripping it again changes nothing, and
    it begins and ends with a character that is not white space. *)
Theorem summary_is_trimmed (env : Env) (pdf_text : string) (w : world) (s : string) :
  fst (get_pdf_summary env pdf_text w) = Return s ->
  PyStr.strip s = s
  /\ (exists c rest, s = String c rest /\ PyStr.isspace c = false)
  /\ (exists init c, s = init ++ String c "" /\ PyStr.isspace c = false).
Proof.
  intros H.
  destruct (get_pdf_summary_returns _ _ _ _ H) as (events & rt & _ & _ & _ & Hs & ->).
  split; [apply strip_idempotent|].
  destruct (strip_shape rt) as [E|(c & t & E & Hc)]; [contradiction|].
  split; [exists c, t; auto|].
  destruct (string_last c t) as (init & d & Hlast). rewrite <- E in Hlast.
  exists init, d. split; [exact Hlast|].
  unfold PyStr.strip in Hlast. exact (rstrip_last _ _ _ Hlast).
Qed.

Lemma summary_is_trimmed_witness :
  fst (get_pdf_summary (with_runtime sample_env padded_events None)
         "text" empty_world)
    = Return "A short summary."
  /\ PyStr.strip "A short summary." = "A short summary.".
Proof.
  assert (H : fst (get_pdf_summary (with_runtime sample_env padded_events None)
                     "text" empty_world) = Return "A short summary.")
    by (vm_compute; reflexivity).
  split; [exact H|].
  exact (proj1 (summary_is_trimmed _ _ _ _ H)).
Defined.

Lemma for_events_null_parts (events : list Event) (acc : string) :
  Exists has_null_parts events ->
  for_events events acc = Raise (PyExc TypeError "'NoneType' object is not iterable").
Proof.
  intros H. revert acc.
  induction H as [ev rest (c & Hc & Hp)|ev rest _ IH]; intros acc;
    cbn [for_events].
  - now rewrite Hc, Hp.
  - destruct (content ev) as [| |c]; try apply IH.
    destruct (parts c); try apply IH. reflexivity.
Qed.

(** One event whose content has [parts] equal to [None] makes the whole
    call fail with the [TypeError] text, whatever text the other events
    carry and however the stream ends. *)
Theorem null_parts_abort_summary (env : Env) (pdf_text : string) (w : world)
    (events : list Event) (failure : option lib_error) :
  create_session_error env = None ->
  run_async env user_id (session_id env) (prompt_text pdf_text) = (events, failure) ->
  Exists has_null_parts events ->
  fst (get_pdf_summary env pdf_text w)
    = Raise (adk_failed "'NoneType' object is not iterable").
Proof.
  intros Hcs Hrun Hnull. run. rewrite Hcs. step. rewrite Hrun.
  rewrite (for_events_null_parts events "" Hnull). reflexivity.
Qed.

Lemma null_parts_witness :
  fst (get_pdf_summary (with_runtime sample_env null_parts_events None)
         "text" empty_world)
    = Raise (adk_failed "'NoneType' object is not iterable").
Proof.
  apply (null_parts_abort_summary (with_runtime sample_env null_parts_events None)
           "text" empty_world null_parts_events None).
  - reflexivity.
  - reflexivity.
  - apply Exists_cons_tl, Exists_cons_hd. eexists. split; reflexivity.
Defined.

Lemma hex_digit_is_lower_hex (n : N) : (n < 16)%N -> is_lower_hex (hex_digit n) = true.
Proof.
  intros H.
  assert (Hn : n = N.of_nat (N.to_nat n)) by now rewrite N2Nat.id.
  assert (Hlt : N.to_nat n < 16) by lia.
  rewrite Hn. generalize dependent (N.to_nat n). intros m _ Hm.
  do 16 (destruct m as [|m]; [reflexivity|]). lia.
Qed.

Lemma hex_fixed_is_lower_hex (k : nat) (n : N) :
  string_forallb is_lower_hex (hex_fixed k n) = true.
Proof.
  revert n. induction k as [|k IH]; intros n; [reflexivity|].
  cbn [hex_fixed]. rewrite string_forallb_app, IH. cbn [string_forallb andb].
  rewrite hex_digit_is_lower_hex; [reflexivity|]. apply N.mod_lt. lia.
Qed.

(** Every session identifier is [pdf_session_] followed by exactly eight
    lowercase hexadecimal digits: twenty characters in all. *)
Theorem session_id_format (env : Env) :
  exists digits,
    session_id env = "pdf_session_" ++ digits
    /\ String.length digits = 8
    /\ string_forallb is_lower_hex digits = true
    /\ String.length (session_id env) = 20.
Proof.
  exists (hex_fixed 8 (uuid4 env / 2 ^ 96)).
  split; [apply session_id_digits|].
  split; [apply length_hex_fixed|].
  split; [apply hex_fixed_is_lower_hex|].
  rewrite session_id_digits, length_app_s, length_hex_fixed. reflexivity.
Qed.

(** ** Requests do not depend on the state they start in *)

Lemma extract_text_same (env : Env) (p : string) (w1 w2 : world) :
  files w1 !! p = files w2 !! p ->
  fst (PDFExtractor.extract_text env p w1) = fst (PDFExtractor.extract_text env p w2).
Proof.
  intros H. unfold PDFExtractor.extract_text, try_except, bind.
  rewrite !fitz_open_run, (open_result_same env p w1 w2 H).
  destruct (PDFExtractor.open_result env w2 p) as [[[] m]|doc]; try reflexivity.
  unfold of_result.
  destruct (PDFExtractor.for_pages doc 0 []) as [[|t tc]|[[] m|s d]]; reflexivity.
Qed.

Lemma get_page_count_same (env : Env) (p : string) (w1 w2 : world) :
  files w1 !! p = files w2 !! p ->
  fst (PDFExtractor.get_page_count env p w1)
    = fst (PDFExtractor.get_page_count env p w2).
Proof.
  intros H. unfold PDFExtractor.get_page_count, try_except, bind.
  rewrite !fitz_open_run, (open_result_same env p w1 w2 H).
  destruct (PDFExtractor.open_result env w2 p) as [[[] m]|doc]; reflexivity.
Qed.

Lemma get_pdf_summary_same (env : Env) (t : string) (w1 w2 : world) :
  fst (get_pdf_summary env t w1) = fst (get_pdf_summary env t w2).
Proof.
  run.
  destruct (create_session_error env) as [[[] m]|]; try reflexivity.
  destruct (run_async env user_id (session_id env) (prompt_text t))
    as [events failure].
  step.
  destruct (for_events events "") as [rt|[[] m|s d]]; try reflexivity.
  destruct failure as [[[] m]|]; try reflexivity.
  destruct (PyStr.strip rt); reflexivity.
Qed.

Lemma extract_and_summarize_same (env : Env) (file : UploadFile) (path : string)
    (st1 st2 : frame) :
  files (fw st1) !! path = files (fw st2) !! path ->
  fst (extract_and_summarize env file path st1)
    = fst (extract_and_summarize env file path st2).
Proof.
  intros H.
  pose proof (extract_text_same env path (fw st1) (fw st2) H) as Ht.
  unfold extract_and_summarize, try_except, bind, in_world.
  destruct (extract_text_run env path (fw st1)) as (r1 & E1 & _).
  destruct (extract_text_run env path (fw st2)) as (r2 & E2 & _).
  rewrite E1, E2 in Ht |- *. cbn [fst] in Ht. subst r2. step.
  destruct r1 as [pdf_text|e].
  2: destruct e as [[] m|s d]; reflexivity.
  match goal with
  | |- context [PDFExtractor.get_page_count env path ?wa] =>
      match goal with
      | |- fst _ = fst ?rhs =>
          match rhs with
          | context [PDFExtractor.get_page_count env path ?wb] =>
              pose proof (get_page_count_same env path wa wb H) as Hc;
              destruct (get_page_count_run env path wa) as (c1 & F1 & _);
              destruct (get_page_count_run env path wb) as (c2 & F2 & _)
          end
      end
  end.
  rewrite F1, F2 in Hc |- *. cbn [fst] in Hc. subst c2. step.
  destruct c1 as [n|e].
  2: destruct e as [[] m|s d]; reflexivity.
  unfold ret. step.
  match goal with
  | |- context [get_pdf_summary env ?t ?wa] =>
      match goal with
      | |- fst _ = fst ?rhs =>
          match rhs with
          | context [get_pdf_summary env t ?wb] =>
              pose proof (get_pdf_summary_same env t wa wb) as Hs;
              destruct (get_pdf_summary env t wa) as [s1 wa'];
              destruct (get_pdf_summary env t wb) as [s2 wb']
          end
      end
  end.
  cbn [fst] in Hs. subst s2. step.
  destruct s1 as [s|[[] m|s d]]; reflexivity.
Qed.

(** The outcome of a request is the same whatever files exist and whatever
    calls were made before it: nothing is carried from one request to the
    next through the filesystem. *)
Theorem upload_pdf_independent_of_world (env : Env) (file : UploadFile)
    (w1 w2 : world) :
  fst (upload_pdf env file w1) = fst (upload_pdf env file w2).
Proof.
  destruct (upload_pdf_cases env file w1)
    as [(d & Hng & H & _)|[(e & Hg & He & H)|[(n & e & Hg & Hn & He & H)
       |(n & r & w3 & Hg & Hn & Hwr & Hrun & _ & _ & H)]]].
  - destruct (gate_cases env file) as [Hg|Hbad]; [contradiction|].
    destruct (upload_pdf_rejected env file w1 Hbad) as (d1 & H1 & A1 & B1 & C1).
    destruct (upload_pdf_rejected env file w2 Hbad) as (d2 & H2 & A2 & B2 & C2).
    rewrite H1, H2. cbn [fst].
    destruct (gate_cases env file) as [?|_]; [contradiction|].
    assert (d1 = d2) as ->; [|reflexivity].
    unfold bad_extension in *.
    destruct (PyStr.endswith (PyStr.lower (filename file)) ".pdf").
    + assert (Hne : true <> false) by discriminate.
      destruct (Z_gt_dec (Z.of_nat (length (file_bytes file)))
                  (MAX_FILE_SIZE_BYTES env)) as [Hgt|Hle].
      * now rewrite (B1 Hne Hgt), (B2 Hne Hgt).
      * now rewrite (C1 Hne Hle), (C2 Hne Hle).
    + now rewrite (A1 eq_refl), (A2 eq_refl).
  - rewrite H, (upload_pdf_past_gate env file w2 Hg),
      (process_upload_tempfile_fails _ _ _ _ _ He). reflexivity.
  - rewrite H, (upload_pdf_past_gate env file w2 Hg),
      (process_upload_write_fails _ _ _ _ _ _ Hn He). reflexivity.
  - destruct (upload_pdf_staged env file w2 n Hg Hn Hwr)
      as (r' & w3' & Hrun' & _ & _ & H').
    rewrite H, H'. cbn [fst].
    pose proof (extract_and_summarize_same env file n
                  (Frame (staged w1 n (file_bytes file)) (Some n) (Some n))
                  (Frame (staged w2 n (file_bytes file)) (Some n) (Some n))) as Hsame.
    rewrite Hrun, Hrun' in Hsame. apply Hsame.
    cbn [fw staged files]. now rewrite !lookup_insert_eq.
Qed.

(** ** Configuration *)

(** The two configuration modules and the agent read the model name from
    the same variable but with different defaults: the Ollama configuration
    always names the model the agent is built with, and it names the same
    model as the proxy configuration exactly when [MODEL_NAME] is set. *)
Theorem model_name_agreement (environ : gmap string string) :
  OllamaConfig.get_ollama_config environ !! "model" = Some (Agent.MODEL_NAME environ)
  /\ Agent.agent_model environ = "ollama_chat/" ++ OllamaConfig.MODEL_NAME environ
  /\ OllamaConfig.get_ollama_config environ !! "base_url"
     = Some (Agent.OLLAMA_API_BASE environ)
  /\ (OllamaConfig.get_ollama_config environ !! "model"
      = ProxyConfig.get_proxy_config environ !! "model"
      <-> is_Some (environ !! "MODEL_NAME")).
Proof.
  unfold OllamaConfig.get_ollama_config, ProxyConfig.get_proxy_config.
  rewrite !lookup_insert_ne, !lookup_insert_eq by discriminate.
  split; [reflexivity|]. split; [reflexivity|]. split; [reflexivity|].
  unfold OllamaConfig.MODEL_NAME, ProxyConfig.MODEL_NAME, os_getenv.
  destruct (environ !! "MODEL_NAME") as [v|].
  - split; [eauto|reflexivity].
  - split; [discriminate|]. intros [v Hv]. discriminate.
Qed.

(** Each configuration dictionary has exactly its own keys and depends
    only on its own variables: two environments that agree on them give the
    same dictionary.  The model endpoint is the [base_url] entry of the
    Ollama configuration followed by [/v1]. *)
Theorem config_depends_on_own_variables (e1 e2 : gmap string string) :
  dom (OllamaConfig.get_ollama_config e1) = ({["base_url"; "model"]} : gset string)
  /\ dom (ProxyConfig.get_proxy_config e1)
     = ({["proxy_url"; "api_key"; "model"]} : gset string)
  /\ (forall base, OllamaConfig.get_ollama_config e1 !! "base_url" = Some base ->
                   OllamaConfig.get_model_endpoint e1 = base ++ "/v1")
  /\ (e1 !! "OLLAMA_BASE_URL" = e2 !! "OLLAMA_BASE_URL" ->
      e1 !! "MODEL_NAME" = e2 !! "MODEL_NAME" ->
      OllamaConfig.get_ollama_config e1 = OllamaConfig.get_ollama_config e2
      /\ OllamaConfig.get_model_endpoint e1 = OllamaConfig.get_model_endpoint e2)
  /\ (e1 !! "LITELLM_PROXY_URL" = e2 !! "LITELLM_PROXY_URL" ->
      e1 !! "LITELLM_MASTER_KEY" = e2 !! "LITELLM_MASTER_KEY" ->
      e1 !! "MODEL_NAME" = e2 !! "MODEL_NAME" ->
      ProxyConfig.get_proxy_config e1 = ProxyConfig.get_proxy_config e2).
Proof.
  split; [|split; [|split; [|split]]].
  - unfold OllamaConfig.get_ollama_config. rewrite !dom_insert_L. set_solver.
  - unfold ProxyConfig.get_proxy_config. rewrite !dom_insert_L. set_solver.
  - intros base. unfold OllamaConfig.get_ollama_config. rewrite lookup_insert_eq.
    intros H. injection H as <-. reflexivity.
  - intros Hb Hm.
    unfold OllamaConfig.get_ollama_config, OllamaConfig.get_model_endpoint,
      OllamaConfig.OLLAMA_BASE_URL, OllamaConfig.MODEL_NAME, os_getenv.
    now rewrite Hb, Hm.
  - intros Hu Hk Hm.
    unfold ProxyConfig.get_proxy_config, ProxyConfig.LITELLM_PROXY_URL,
      ProxyConfig.LITELLM_MASTER_KEY, ProxyConfig.MODEL_NAME, os_getenv.
    now rewrite Hu, Hk, Hm.
Qed.
